(** * RSS reader: the RSS-to-output transformation of [main.py]

    A shallow embedding of [rss_parser], of the four helpers it calls
    ([get_output], [get_json_output], [get_channel_items],
    [get_channel_items_json]) and of [main] past its command line,
    together with the parts of the Python
    run time they lean on: exceptions, [str] formatting, [repr] of a list,
    insertion-ordered dictionaries, [json.dumps] with [indent=2] and the
    [find]/[findall]/[text] interface of [xml.etree.ElementTree]. *)

From Stdlib Require Import String Ascii List ZArith Bool Lia.
Import ListNotations.
Open Scope string_scope.
Open Scope Z_scope.

Set Warnings "-register-all".

(** ** Exceptions and the outcome monad *)

(** The exceptions the transformation can end with.  [UnhandledException]
    is the class declared in [main.py]; [ParseError] is raised by
    [ElementTree.fromstring]; the other three are raised by the Python
    run time ([output[-1]] on an empty list, [str.join] on a [None],
    [d[k]] on a missing key). *)
Inductive exn : Type :=
| UnhandledException
| ParseError
| IndexError
| TypeError
| KeyError.

Inductive outcome (A : Type) : Type :=
| Return (a : A)
| Raise (e : exn).

Arguments Return {A} a.
Arguments Raise {A} e.

Definition bind {A B : Type} (m : outcome A) (k : A -> outcome B) : outcome B :=
  match m with
  | Return a => k a
  | Raise e => Raise e
  end.

Notation "x <- m ;; k" := (bind m (fun x => k))
  (at level 61, m at next level, right associativity).

(** A Python [for x in xs: body] that threads one mutable variable and may
    raise. *)
Fixpoint for_each {A S : Type} (body : A -> S -> outcome S) (xs : list A) (s : S)
  : outcome S :=
  match xs with
  | [] => Return s
  | x :: xs' => s' <- body x s ;; for_each body xs' s'
  end.

(** ** Strings *)

(** A Python [str] is modelled by a Rocq [string]; its characters stand for
    the code points below 256. *)

Definition newline : string := String "010"%char EmptyString.
Definition dquote : ascii := "034"%char.
Definition squote : ascii := "039"%char.
Definition backslash : ascii := "092"%char.

Fixpoint contains_char (c : ascii) (s : string) : bool :=
  match s with
  | EmptyString => false
  | String d s' => if Ascii.eqb c d then true else contains_char c s'
  end.

(** [sep.join(parts)] on a list of [str]. *)
Fixpoint join (sep : string) (parts : list string) : string :=
  match parts with
  | [] => EmptyString
  | [p] => p
  | p :: rest => p ++ sep ++ join sep rest
  end.

(** [sep.join(parts)] on a list whose entries may be [None]: the first
    [None] makes [str.join] raise [TypeError]. *)
Fixpoint all_str (parts : list (option string)) : outcome (list string) :=
  match parts with
  | [] => Return []
  | Some p :: rest => ps <- all_str rest ;; Return (p :: ps)
  | None :: _ => Raise TypeError
  end.

Definition py_join (sep : string) (parts : list (option string)) : outcome string :=
  ps <- all_str parts ;; Return (join sep ps).

(** What an f-string puts for [{x}] when [x] is a [str] or [None]. *)
Definition py_str (x : option string) : string :=
  match x with
  | Some s => s
  | None => "None"
  end.

Definition hex_digit (n : N) : ascii :=
  match n with
  | 0 => "0" | 1 => "1" | 2 => "2" | 3 => "3" | 4 => "4" | 5 => "5"
  | 6 => "6" | 7 => "7" | 8 => "8" | 9 => "9" | 10 => "a" | 11 => "b"
  | 12 => "c" | 13 => "d" | 14 => "e" | _ => "f"
  end%N%char.

Definition hex2 (c : ascii) : string :=
  let n := N_of_ascii c in
  String (hex_digit (N.div n 16)) (String (hex_digit (N.modulo n 16)) EmptyString).

(** [str.isprintable] on one code point below 256. *)
Definition is_printable (c : ascii) : bool :=
  let n := N_of_ascii c in
  ((32 <=? n) && (n <? 127) || (161 <=? n) && negb (n =? 173))%N.

(** One character of [repr(s)], inside quotes [quote]. *)
Definition repr_char (quote c : ascii) : string :=
  let n := N_of_ascii c in
  if Ascii.eqb c quote || Ascii.eqb c backslash then String backslash (String c EmptyString)
  else if (n =? 9)%N then String backslash "t"
  else if (n =? 10)%N then String backslash "n"
  else if (n =? 13)%N then String backslash "r"
  else if is_printable c then String c EmptyString
  else String backslash (String "x" (hex2 c)).

Fixpoint repr_chars (quote : ascii) (s : string) : string :=
  match s with
  | EmptyString => EmptyString
  | String c s' => repr_char quote c ++ repr_chars quote s'
  end.

(** [repr(s)] for a [str]: single quotes, unless [s] has a single quote and
    no double quote. *)
Definition repr_str (s : string) : string :=
  let quote :=
    if contains_char squote s && negb (contains_char dquote s) then dquote else squote in
  String quote (repr_chars quote s ++ String quote EmptyString).

Definition py_repr (x : option string) : string :=
  match x with
  | Some s => repr_str s
  | None => "None"
  end.

(** What an f-string puts for [{xs}] when [xs] is a list of [str] or [None]. *)
Definition repr_list (xs : list (option string)) : string :=
  "[" ++ join ", " (map py_repr xs) ++ "]".

(** ** Dictionaries *)

(** A Python [dict] keeps its keys in insertion order; it is an association
    list without repeated keys. *)
Definition dict (V : Type) : Type := list (string * V).

Definition keys {V : Type} (d : dict V) : list string := map fst d.

Fixpoint dict_lookup {V : Type} (d : dict V) (k : string) : option V :=
  match d with
  | [] => None
  | (k', v) :: d' => if String.eqb k k' then Some v else dict_lookup d' k
  end.

(** [d[k]] *)
Definition getitem {V : Type} (d : dict V) (k : string) : outcome V :=
  match dict_lookup d k with
  | Some v => Return v
  | None => Raise KeyError
  end.

(** [d[k] = v]: an existing key keeps its place, a new key goes last. *)
Fixpoint setitem {V : Type} (d : dict V) (k : string) (v : V) : dict V :=
  match d with
  | [] => [(k, v)]
  | (k', v') :: d' =>
      if String.eqb k k' then (k, v) :: d' else (k', v') :: setitem d' k v
  end.

(** [d.update(e)] *)
Definition update {V : Type} (d e : dict V) : dict V :=
  fold_left (fun acc kv => setitem acc (fst kv) (snd kv)) e d.

(** ** JSON values and [json.dumps] *)

(** The Python values [get_json_output] hands to [json.dumps]: [None],
    [str], [list] and [dict] with [str] keys. *)
Inductive PyVal : Type :=
| PyNone
| PyStr (s : string)
| PyList (l : list PyVal)
| PyDict (d : list (string * PyVal)).

Definition of_text (x : option string) : PyVal :=
  match x with
  | Some s => PyStr s
  | None => PyNone
  end.

(** One character of a JSON string, as [json.dumps] writes it with its
    default [ensure_ascii=True]. *)
Definition json_char (c : ascii) : string :=
  let n := N_of_ascii c in
  if Ascii.eqb c dquote then String backslash (String dquote EmptyString)
  else if Ascii.eqb c backslash then String backslash (String backslash EmptyString)
  else if ((32 <=? n) && (n <=? 126))%N then String c EmptyString
  else if (n =? 8)%N then String backslash "b"
  else if (n =? 12)%N then String backslash "f"
  else if (n =? 10)%N then String backslash "n"
  else if (n =? 13)%N then String backslash "r"
  else if (n =? 9)%N then String backslash "t"
  else String backslash ("u00" ++ hex2 c).

Fixpoint json_chars (s : string) : string :=
  match s with
  | EmptyString => EmptyString
  | String c s' => json_char c ++ json_chars s'
  end.

Definition json_string (s : string) : string :=
  String dquote (json_chars s ++ String dquote EmptyString).

Fixpoint spaces (n : nat) : string :=
  match n with
  | O => EmptyString
  | S n' => " " ++ spaces n'
  end.

(** A line break followed by the indentation of nesting level [level],
    two spaces a level. *)
Definition newline_indent (level : nat) : string :=
  newline ++ spaces (2 * level).

(** [json.dumps(v, indent=2)] at nesting level [level]. *)
Fixpoint dumps_at (level : nat) (v : PyVal) : string :=
  match v with
  | PyNone => "null"
  | PyStr s => json_string s
  | PyList [] => "[]"
  | PyList l =>
      "[" ++ newline_indent (S level)
          ++ join ("," ++ newline_indent (S level)) (map (dumps_at (S level)) l)
          ++ newline_indent level ++ "]"
  | PyDict [] => "{}"
  | PyDict d =>
      "{" ++ newline_indent (S level)
          ++ join ("," ++ newline_indent (S level))
               (map (fun kv => match kv with
                               | (k, x) => json_string k ++ ": " ++ dumps_at (S level) x
                               end) d)
          ++ newline_indent level ++ "}"
  end.

Definition dumps (v : PyVal) : string := dumps_at 0 v.

(** ** The element tree *)

(** An [xml.etree.ElementTree.Element], with the three parts the program
    reads: the tag, the text before the first child ([None] when there is
    none, as for [<title></title>] and [<title/>]) and the children in
    document order. *)
Inductive Element : Type :=
| mkElement (tag : string) (text : option string) (children : list Element).

Definition tag (e : Element) : string :=
  match e with mkElement t _ _ => t end.

Definition text (e : Element) : option string :=
  match e with mkElement _ x _ => x end.

Definition children (e : Element) : list Element :=
  match e with mkElement _ _ cs => cs end.

(** [e.findall(name)] for a plain tag name: the children of [e] with that
    tag, in document order. *)
Definition findall (e : Element) (name : string) : list Element :=
  filter (fun c => String.eqb (tag c) name) (children e).

(** [e.find(name)] for a plain tag name: the first such child, or [None]. *)
Definition find (e : Element) (name : string) : option Element :=
  List.find (fun c => String.eqb (tag c) name) (children e).

(** ** Python lists *)

(** [xs.append(x)] *)
Definition append {A : Type} (xs : list A) (x : A) : list A := (xs ++ [x])%list.

(** [xs.extend(ys)] *)
Definition extend {A : Type} (xs ys : list A) : list A := (xs ++ ys)%list.

(** [output[-1]] *)
Fixpoint last_item (output : list string) : outcome string :=
  match output with
  | [] => Raise IndexError
  | [x] => Return x
  | _ :: rest => last_item rest
  end.

(** [output[-1] = x] *)
Fixpoint set_last_item (output : list string) (x : string) : outcome (list string) :=
  match output with
  | [] => Raise IndexError
  | [_] => Return [x]
  | y :: rest => r <- set_last_item rest x ;; Return (y :: r)
  end.

Definition nonempty {A : Type} (l : list A) : bool :=
  match l with
  | [] => false
  | _ :: _ => true
  end.

(** [limit is not None and count >= limit] *)
Definition limit_reached (limit : option Z) (count : Z) : bool :=
  match limit with
  | Some l => l <=? count
  | None => false
  end.

(** ** The field catalogs (locals of [rss_parser], lines 37-39) *)

Definition channel_elements_dict : dict string :=
  [("title", "Feed"); ("link", "Link"); ("lastBuildDate", "Last Build Date");
   ("pubDate", "Publish Date"); ("language", "Language"); ("category", "Categories");
   ("managinEditor", "Editor"); ("description", "Description")].

Definition item_elements_dict : dict string :=
  [("title", "Title"); ("author", "Author"); ("pubDate", "Published"); ("link", "Link");
   ("category", "Categories"); ("description", EmptyString)].

(** ** [get_channel_items] (lines 109-119) *)

(** The body of the loop over the catalog keys, lines 112-118. *)
Definition get_channel_items_step (channel_elements_dict : dict string)
    (channel : Element) (el : string) (result : list string) : outcome (list string) :=
  match find channel el with
  | Some found =>
      if String.eqb el "category" then
        let categories := map text (findall channel "category") in
        if nonempty categories then
          label <- getitem channel_elements_dict el ;;
          Return (append result (label ++ ": " ++ repr_list categories))
        else Return result
      else
        label <- getitem channel_elements_dict el ;;
        Return (append result (label ++ ": " ++ py_str (text found)))
  | None => Return result
  end.

Definition get_channel_items (channel_elements_dict : dict string) (channel : Element)
  : outcome (list string) :=
  for_each (get_channel_items_step channel_elements_dict channel)
           (keys channel_elements_dict) [].

(** ** [get_channel_items_json] (lines 122-132) *)

(** The body of the loop over the catalog keys, lines 125-131. *)
Definition get_channel_items_json_step (channel_elements_dict : dict string)
    (channel : Element) (el : string) (result : dict PyVal) : outcome (dict PyVal) :=
  match find channel el with
  | Some found =>
      if String.eqb el "category" then
        let categories := map text (findall channel "category") in
        if nonempty categories then
          label <- getitem channel_elements_dict el ;;
          Return (setitem result label (PyList (map of_text categories)))
        else Return result
      else Return (setitem result el (of_text (text found)))
  | None => Return result
  end.

Definition get_channel_items_json (channel_elements_dict : dict string) (channel : Element)
  : outcome (dict PyVal) :=
  for_each (get_channel_items_json_step channel_elements_dict channel)
           (keys channel_elements_dict) [].

(** ** [get_output] (lines 49-74) *)

(** The body of the loop over the item catalog keys, lines 62-72. *)
Definition get_output_field (channel_elements_dict item_elements_dict : dict string)
    (item : Element) (el : string) (output : list string) : outcome (list string) :=
  match find item el with
  | Some found =>
      let content := text found in
      if String.eqb el "category" then
        let categories := map text (findall item "category") in
        if nonempty categories then
          label <- getitem channel_elements_dict el ;;
          joined <- py_join ", " categories ;;
          Return (append output (label ++ " " ++ joined))
        else Return output
      else if String.eqb el "<description>" then
        Return (append output (newline ++ py_str content))
      else
        label <- getitem item_elements_dict el ;;
        Return (append output (label ++ ": " ++ py_str content))
  | None => Return output
  end.

(** One turn of the loop over the items, past its [break] test: lines 61-72. *)
Definition get_output_item (channel_elements_dict item_elements_dict : dict string)
    (item : Element) (output : list string) : outcome (list string) :=
  for_each (get_output_field channel_elements_dict item_elements_dict item)
           (keys item_elements_dict) output.

(** The loop over the items with its counter and [break], lines 58-73. *)
Fixpoint get_output_items (channel_elements_dict item_elements_dict : dict string)
    (items : list Element) (limit : option Z) (count : Z) (output : list string)
  : outcome (list string) :=
  match items with
  | [] => Return output
  | item :: rest =>
      if limit_reached limit count then Return output
      else
        output' <- get_output_item channel_elements_dict item_elements_dict item output ;;
        get_output_items channel_elements_dict item_elements_dict rest limit (count + 1) output'
  end.

(** The body of the loop over the channels, lines 53-73. *)
Definition get_output_channel (channel_elements_dict item_elements_dict : dict string)
    (limit : option Z) (channel : Element) (output : list string) : outcome (list string) :=
  lines <- get_channel_items channel_elements_dict channel ;;
  let output := extend output lines in
  final <- last_item output ;;
  output <- set_last_item output (final ++ newline) ;;
  let items := findall channel "item" in
  get_output_items channel_elements_dict item_elements_dict items limit 0 output.

Definition get_output (channel_elements_dict item_elements_dict : dict string)
    (parsed_xml : Element) (limit : option Z) : outcome (list string) :=
  let channels := findall parsed_xml "channel" in
  for_each (get_output_channel channel_elements_dict item_elements_dict limit) channels [].

(** ** [get_json_output] (lines 77-106) *)

(** The body of the loop over the item catalog keys, lines 93-100. *)
Definition get_json_field (channel_elements_dict : dict string)
    (item : Element) (el : string) (items_dict : dict PyVal) : outcome (dict PyVal) :=
  match find item el with
  | Some found =>
      if String.eqb el "category" then
        let categories := map text (findall item "category") in
        if nonempty categories then
          label <- getitem channel_elements_dict el ;;
          Return (setitem items_dict label (PyList (map of_text categories)))
        else Return items_dict
      else
        let content := text found in
        Return (setitem items_dict el (of_text content))
  | None => Return items_dict
  end.

(** One turn of the loop over the items, past its [break] test up to the
    [append]: lines 90-100. *)
Definition get_json_item (channel_elements_dict item_elements_dict : dict string)
    (item : Element) : outcome (dict PyVal) :=
  for_each (get_json_field channel_elements_dict item) (keys item_elements_dict) [].

(** The loop over the items with its counter and [break], lines 87-102. *)
Fixpoint get_json_items (channel_elements_dict item_elements_dict : dict string)
    (items : list Element) (limit : option Z) (count : Z) (items_list : list PyVal)
  : outcome (list PyVal) :=
  match items with
  | [] => Return items_list
  | item :: rest =>
      if limit_reached limit count then Return items_list
      else
        items_dict <- get_json_item channel_elements_dict item_elements_dict item ;;
        get_json_items channel_elements_dict item_elements_dict rest limit (count + 1)
                       (append items_list (PyDict items_dict))
  end.

(** The body of the loop over the channels, lines 82-104. *)
Definition get_json_channel (channel_elements_dict item_elements_dict : dict string)
    (limit : option Z) (channel : Element) (output : dict PyVal) : outcome (dict PyVal) :=
  fields <- get_channel_items_json channel_elements_dict channel ;;
  let output := update output fields in
  let items := findall channel "item" in
  items_list <- get_json_items channel_elements_dict item_elements_dict items limit 0 [] ;;
  if nonempty items_list then Return (setitem output "items" (PyList items_list))
  else Return output.

(** The dictionary [output] as it stands at line 105, before it is
    serialised. *)
Definition get_json_object (channel_elements_dict item_elements_dict : dict string)
    (parsed_xml : Element) (limit : option Z) : outcome (dict PyVal) :=
  let channels := findall parsed_xml "channel" in
  for_each (get_json_channel channel_elements_dict item_elements_dict limit) channels [].

Definition get_json_output (channel_elements_dict item_elements_dict : dict string)
    (parsed_xml : Element) (limit : option Z) : outcome string :=
  output <- get_json_object channel_elements_dict item_elements_dict parsed_xml limit ;;
  Return (dumps (PyDict output)).

(** ** [rss_parser] (lines 12-46) *)

(** [limit is not None and limit < 0] *)
Definition limit_negative (limit : option Z) : bool :=
  match limit with
  | Some l => l <? 0
  | None => false
  end.

(** [fromstring] stands for [xml.etree.ElementTree.fromstring]: it returns
    the root element or raises. *)
Definition rss_parser (fromstring : string -> outcome Element)
    (xml : string) (limit : option Z) (json : bool) : outcome (list string) :=
  if limit_negative limit then Raise UnhandledException
  else
    parsed_xml <- fromstring xml ;;
    if json then
      text_out <- get_json_output channel_elements_dict item_elements_dict parsed_xml limit ;;
      Return (append [] text_out)
    else get_output channel_elements_dict item_elements_dict parsed_xml limit.

(** ** A parser for plain documents *)

(** [plain_fromstring] reads the documents that are made of start tags,
    end tags and empty-element tags without attributes, and of character
    data in printable ASCII, tabs and line feeds with the five predefined
    entity references.  On them it builds the tree that
    [ElementTree.fromstring] builds (text after a child is that child's
    [tail], which [Element] does not keep); it raises [ParseError] on
    everything else. *)

Inductive token : Type :=
| TStart (name : string)
| TEnd (name : string)
| TEmpty (name : string)
| TText (data : string).

Definition is_space (c : ascii) : bool :=
  let n := N_of_ascii c in
  ((n =? 32) || (n =? 9) || (n =? 10))%N.

Definition is_letter (c : ascii) : bool :=
  let n := N_of_ascii c in
  ((65 <=? n) && (n <=? 90) || (97 <=? n) && (n <=? 122) || (n =? 95))%N.

Definition is_name_char (c : ascii) : bool :=
  let n := N_of_ascii c in
  (is_letter c || (48 <=? n) && (n <=? 57) || (n =? 45) || (n =? 46))%N.

Fixpoint all_chars (p : ascii -> bool) (s : string) : bool :=
  match s with
  | EmptyString => true
  | String c s' => p c && all_chars p s'
  end.

Definition is_name (s : string) : bool :=
  match s with
  | EmptyString => false
  | String c s' => is_letter c && all_chars is_name_char s'
  end.

Definition is_data_char (c : ascii) : bool :=
  let n := N_of_ascii c in
  ((32 <=? n) && (n <=? 126) || (n =? 9) || (n =? 10))%N.

(** [s] without its trailing white space. *)
Fixpoint strip_right (s : string) : string :=
  match s with
  | EmptyString => EmptyString
  | String c s' =>
      match strip_right s' with
      | EmptyString => if is_space c then EmptyString else String c EmptyString
      | r => String c r
      end
  end.

(** [Some p] when [s] is [p] followed by a slash. *)
Fixpoint chop_slash (s : string) : option string :=
  match s with
  | EmptyString => None
  | String c EmptyString => if Ascii.eqb c "/" then Some EmptyString else None
  | String c s' => option_map (String c) (chop_slash s')
  end.

Definition as_name (s : string) : outcome string :=
  let n := strip_right s in
  if is_name n then Return n else Raise ParseError.

(** The token of the markup between [<] and [>]. *)
Definition read_tag (body : string) : outcome token :=
  match body with
  | String "/" rest => n <- as_name rest ;; Return (TEnd n)
  | _ =>
      match chop_slash body with
      | Some rest => n <- as_name rest ;; Return (TEmpty n)
      | None => n <- as_name body ;; Return (TStart n)
      end
  end.

Definition entity (name : string) : outcome ascii :=
  if String.eqb name "lt" then Return "<"%char
  else if String.eqb name "gt" then Return ">"%char
  else if String.eqb name "amp" then Return "&"%char
  else if String.eqb name "apos" then Return squote
  else if String.eqb name "quot" then Return dquote
  else Raise ParseError.

(** Character data with its entity references replaced; [ref] holds the
    name of the reference being read. *)
Fixpoint unescape (s : string) (ref : option string) : outcome string :=
  match s, ref with
  | EmptyString, None => Return EmptyString
  | EmptyString, Some _ => Raise ParseError
  | String c s', None =>
      if Ascii.eqb c "&" then unescape s' (Some EmptyString)
      else if is_data_char c then r <- unescape s' None ;; Return (String c r)
      else Raise ParseError
  | String c s', Some name =>
      if Ascii.eqb c ";" then
        d <- entity name ;; r <- unescape s' None ;; Return (String d r)
      else unescape s' (Some (name ++ String c EmptyString))
  end.

(** Does [s] hold the forbidden [CDATA] end mark? *)
Fixpoint has_cdata_end (s : string) : bool :=
  match s with
  | EmptyString => false
  | String c s' => String.prefix "]]>" s || has_cdata_end s'
  end.

Definition flush_text (data : string) (toks : list token) : outcome (list token) :=
  match data with
  | EmptyString => Return toks
  | _ =>
      if has_cdata_end data then Raise ParseError
      else s <- unescape data None ;; Return (TText s :: toks)
  end.

Inductive lexer_state : Type :=
| InText (data : string)
| InTag (body : string).

Fixpoint tokens (s : string) (st : lexer_state) : outcome (list token) :=
  match s, st with
  | EmptyString, InText data => flush_text data []
  | EmptyString, InTag _ => Raise ParseError
  | String c s', InText data =>
      if Ascii.eqb c "<" then toks <- tokens s' (InTag EmptyString) ;; flush_text data toks
      else tokens s' (InText (data ++ String c EmptyString))
  | String c s', InTag body =>
      if Ascii.eqb c ">" then
        t <- read_tag body ;; toks <- tokens s' (InText EmptyString) ;; Return (t :: toks)
      else tokens s' (InTag (body ++ String c EmptyString))
  end.

(** An element whose end tag has not been read yet. *)
Record frame : Type := mkFrame {
  frame_tag : string;
  frame_text : option string;
  frame_children : list Element
}.

Definition close_frame (f : frame) : Element :=
  mkElement (frame_tag f) (frame_text f) (frame_children f).

Definition add_child (f : frame) (e : Element) : frame :=
  mkFrame (frame_tag f) (frame_text f) (append (frame_children f) e).

(** Character data before the first child is the element's text; after a
    child it is that child's tail. *)
Definition add_text (f : frame) (data : string) : frame :=
  match frame_children f with
  | [] => mkFrame (frame_tag f) (Some data) []
  | _ :: _ => f
  end.

(** Puts a finished element in its parent, or makes it the root. *)
Definition finish (e : Element) (stack : list frame) (root : option Element)
  : outcome (list frame * option Element) :=
  match stack, root with
  | parent :: stack', _ => Return (add_child parent e :: stack', root)
  | [], None => Return ([], Some e)
  | [], Some _ => Raise ParseError
  end.

Fixpoint build (toks : list token) (stack : list frame) (root : option Element)
  : outcome Element :=
  match toks with
  | [] =>
      match stack, root with
      | [], Some r => Return r
      | _, _ => Raise ParseError
      end
  | TText data :: toks' =>
      match stack with
      | [] => if all_chars is_space data then build toks' [] root else Raise ParseError
      | f :: stack' => build toks' (add_text f data :: stack') root
      end
  | TStart name :: toks' =>
      match stack, root with
      | [], Some _ => Raise ParseError
      | _, _ => build toks' (mkFrame name None [] :: stack) root
      end
  | TEmpty name :: toks' =>
      st <- finish (mkElement name None []) stack root ;;
      build toks' (fst st) (snd st)
  | TEnd name :: toks' =>
      match stack with
      | [] => Raise ParseError
      | f :: stack' =>
          if String.eqb (frame_tag f) name then
            st <- finish (close_frame f) stack' root ;;
            build toks' (fst st) (snd st)
          else Raise ParseError
      end
  end.

Definition plain_fromstring (xml : string) : outcome Element :=
  toks <- tokens xml (InText EmptyString) ;;
  build toks [] None.

(** The example document of the docstring of [rss_parser]. *)
Definition example_xml : string :=
  "<rss><channel><title>Some RSS Channel</title><link>https://some.rss.com</link><description>Some RSS Channel</description></channel></rss>".

(** A channel with none of the catalog's elements. *)
Definition empty_channel_xml : string := "<rss><channel></channel></rss>".

(** A channel with two categories. *)
Definition categories_xml : string :=
  "<rss><channel><category>a</category><category>b</category></channel></rss>".

(** A channel with a title and a managing editor. *)
Definition editor_xml : string :=
  "<rss><channel><title>T</title><managingEditor>E</managingEditor></channel></rss>".

(** A channel whose title has no text. *)
Definition empty_title_xml : string := "<rss><channel><title></title></channel></rss>".

(** A document whose elements are never closed. *)
Definition unclosed_xml : string := "<rss><channel>".


(** ** [main] (lines 147-155) *)

(** [main] once the command line is parsed into [source], [json] and
    [limit].  [get] stands for [requests.get(url).text]; it is called
    outside the [try], so what it raises goes through as it is.  The result
    is what [print] writes, the joined lines and a line feed, with the
    value [main] returns. *)
Definition main (fromstring : string -> outcome Element) (get : string -> outcome string)
    (source : option string) (json : bool) (limit : option Z) : outcome (string * Z) :=
  let source := "https://news.yahoo.com/rss" in
  xml <- get source ;;
  match rss_parser fromstring xml limit json with
  | Return lines => Return (join newline lines ++ newline, 0)
  | Raise _ => Raise UnhandledException
  end.

(** * Properties *)

(** ** The outcome monad and the loops *)

Lemma bind_Return_inv {A B : Type} (m : outcome A) (k : A -> outcome B) (b : B) :
  (x <- m ;; k x) = Return b -> exists a, m = Return a /\ k a = Return b.
Proof.
  destruct m as [a | e]; simpl; intros H.
  - exists a; split; [reflexivity | exact H].
  - discriminate H.
Qed.

Lemma for_each_app {A S : Type} (body : A -> S -> outcome S) (xs ys : list A) (s : S) :
  for_each body (xs ++ ys)%list s = (s' <- for_each body xs s ;; for_each body ys s').
Proof.
  revert s; induction xs as [| x xs IH]; intros s; simpl.
  - reflexivity.
  - destruct (body x s) as [s1 | e]; simpl; [apply IH | reflexivity].
Qed.

(** An invariant of the threaded variable survives a loop that returns. *)
Lemma for_each_invariant {A S : Type} (I : S -> Prop) (body : A -> S -> outcome S)
    (xs : list A) :
  (forall x s s', In x xs -> I s -> body x s = Return s' -> I s') ->
  forall s s', I s -> for_each body xs s = Return s' -> I s'.
Proof.
  induction xs as [| x xs IH]; intros Hstep s s' Hs Hrun; simpl in Hrun.
  - injection Hrun as <-; exact Hs.
  - apply bind_Return_inv in Hrun as (s1 & H1 & H2).
    apply (IH (fun y t t' Hy => Hstep y t t' (or_intror Hy)) s1 s'); [| exact H2].
    apply (Hstep x s s1); [left; reflexivity | exact Hs | exact H1].
Qed.

(** A loop whose every turn returns, returns. *)
Lemma for_each_total {A S : Type} (body : A -> S -> outcome S) (xs : list A) :
  (forall x s, In x xs -> exists s', body x s = Return s') ->
  forall s, exists s', for_each body xs s = Return s'.
Proof.
  induction xs as [| x xs IH]; intros Hstep s; simpl.
  - exists s; reflexivity.
  - destruct (Hstep x s (or_introl eq_refl)) as (s1 & H1); rewrite H1; simpl.
    apply IH; intros y t Hy; apply Hstep; right; exact Hy.
Qed.

(** ** The docstring's example *)

(** C1 does not hold as worded: for the example document with no
    limit in text mode, [rss_parser] does not return the three lines with
    the line feed at the end of the second one. *)
Lemma example_newline_not_on_link :
  rss_parser plain_fromstring example_xml None false
  <> Return ["Feed: Some RSS Channel"; "Link: https://some.rss.com" ++ newline;
             "Description: Some RSS Channel"].
Proof. vm_compute. discriminate. Qed.

(** C1, amended: for the example document with no limit in text mode,
    [rss_parser] returns the three lines Feed, Link, Description with the
    line feed that stands for the blank line at the end of the third one,
    the last line of the channel. *)
Theorem example_lines :
  rss_parser plain_fromstring example_xml None false
  = Return ["Feed: Some RSS Channel"; "Link: https://some.rss.com";
            "Description: Some RSS Channel" ++ newline].
Proof. vm_compute. reflexivity. Qed.

(** ** Failures *)

Lemma get_channel_items_nothing_found (dict_ : dict string) (channel : Element)
    (els : list string) (result : list string) :
  Forall (fun el => find channel el = None) els ->
  for_each (get_channel_items_step dict_ channel) els result = Return result.
Proof.
  induction 1 as [| el els Hel _ IH]; simpl.
  - reflexivity.
  - unfold get_channel_items_step at 1; rewrite Hel; simpl; exact IH.
Qed.

Section AnyParser.

Variable fromstring : string -> outcome Element.

(** C6: whatever the document, a negative limit makes [rss_parser] raise
    [UnhandledException], the program's one failure kind, before anything
    is parsed or emitted. *)
Theorem negative_limit_raises (xml : string) (limit : Z) (json : bool) :
  limit < 0 ->
  rss_parser fromstring xml (Some limit) json = Raise UnhandledException.
Proof.
  intros Hneg; unfold rss_parser, limit_negative.
  apply Z.ltb_lt in Hneg; rewrite Hneg; reflexivity.
Qed.

(** C7: when the parser raises [ParseError] on the document, [rss_parser]
    returns no lines at all, and with a limit that is absent or not
    negative it raises that same [ParseError]. *)
Theorem malformed_document_raises (xml : string) (limit : option Z) (json : bool) :
  fromstring xml = Raise ParseError ->
  (forall output, rss_parser fromstring xml limit json <> Return output) /\
  (limit_negative limit = false ->
   rss_parser fromstring xml limit json = Raise ParseError).
Proof.
  intros Hparse; unfold rss_parser; split.
  - intros output; destruct (limit_negative limit); [discriminate |].
    rewrite Hparse; simpl; discriminate.
  - intros Hlimit; rewrite Hlimit, Hparse; reflexivity.
Qed.

(** C9: in text mode, when the first channel of a parsed document has none
    of the eight elements of the channel catalog, [rss_parser] raises
    [IndexError]: the line that takes the line feed is looked up in an
    empty list. *)
Theorem no_channel_field_raises (xml : string) (limit : option Z)
    (parsed_xml channel : Element) (others : list Element) :
  limit_negative limit = false ->
  fromstring xml = Return parsed_xml ->
  findall parsed_xml "channel" = channel :: others ->
  Forall (fun el => find channel el = None) (keys channel_elements_dict) ->
  rss_parser fromstring xml limit false = Raise IndexError.
Proof.
  intros Hlimit Hparse Hchannels Hnone.
  unfold rss_parser; rewrite Hlimit, Hparse; simpl.
  unfold get_output; rewrite Hchannels; simpl.
  unfold get_output_channel, get_channel_items.
  rewrite (get_channel_items_nothing_found _ _ _ _ Hnone); reflexivity.
Qed.

End AnyParser.

Lemma negative_limit_raises_witness :
  -1 < 0 /\
  rss_parser plain_fromstring example_xml (Some (-1)) true = Raise UnhandledException.
Proof.
  split; [reflexivity |].
  apply (negative_limit_raises plain_fromstring example_xml (-1) true); reflexivity.
Defined.

Lemma malformed_document_raises_witness :
  plain_fromstring unclosed_xml = Raise ParseError /\
  (forall output, rss_parser plain_fromstring unclosed_xml (Some 2) false <> Return output) /\
  (limit_negative (Some 2) = false ->
   rss_parser plain_fromstring unclosed_xml (Some 2) false = Raise ParseError).
Proof.
  split; [vm_compute; reflexivity |].
  apply (malformed_document_raises plain_fromstring unclosed_xml (Some 2) false).
  vm_compute; reflexivity.
Defined.

Lemma no_channel_field_raises_witness :
  rss_parser plain_fromstring empty_channel_xml None false = Raise IndexError.
Proof.
  apply (no_channel_field_raises plain_fromstring empty_channel_xml None
           (mkElement "rss" None [mkElement "channel" None []])
           (mkElement "channel" None []) []).
  - reflexivity.
  - vm_compute; reflexivity.
  - reflexivity.
  - repeat constructor.
Defined.

(** ** More on loops *)

(** What the turn for [x0] establishes and every turn of the loop keeps,
    holds when the loop returns. *)
Lemma for_each_establishes {A S : Type} (P : S -> Prop) (body : A -> S -> outcome S)
    (xs : list A) (x0 : A) :
  In x0 xs ->
  (forall s s', body x0 s = Return s' -> P s') ->
  (forall x s s', In x xs -> P s -> body x s = Return s' -> P s') ->
  forall s s', for_each body xs s = Return s' -> P s'.
Proof.
  intros Hin Hset Hkeep s s' Hrun.
  destruct (in_split _ _ Hin) as (before & after & ->).
  rewrite for_each_app in Hrun.
  apply bind_Return_inv in Hrun as (s1 & _ & Hrun); simpl in Hrun.
  apply bind_Return_inv in Hrun as (s2 & Hturn & Hrun).
  apply (for_each_invariant P body after) with (s := s2); [| eauto | exact Hrun].
  intros x t t' Hx; apply Hkeep.
  apply in_or_app; right; right; exact Hx.
Qed.

(** ** Dictionaries *)

Lemma dict_lookup_setitem {V : Type} (d : dict V) (k k' : string) (v : V) :
  dict_lookup (setitem d k v) k' = if String.eqb k' k then Some v else dict_lookup d k'.
Proof.
  induction d as [| [k0 v0] d IH]; simpl.
  - reflexivity.
  - destruct (String.eqb k k0) eqn:E; simpl.
    + apply String.eqb_eq in E; subst k0.
      destruct (String.eqb k' k); reflexivity.
    + rewrite IH.
      destruct (String.eqb k' k0) eqn:E0; [| reflexivity].
      apply String.eqb_eq in E0; subst k0.
      rewrite String.eqb_sym, E; reflexivity.
Qed.

Lemma dict_lookup_setitem_same {V : Type} (d : dict V) (k : string) (v : V) :
  dict_lookup (setitem d k v) k = Some v.
Proof. rewrite dict_lookup_setitem, String.eqb_refl; reflexivity. Qed.

Lemma dict_lookup_setitem_other {V : Type} (d : dict V) (k k' : string) (v : V) :
  k' <> k -> dict_lookup (setitem d k v) k' = dict_lookup d k'.
Proof.
  intros Hne; rewrite dict_lookup_setitem.
  apply String.eqb_neq in Hne; rewrite Hne; reflexivity.
Qed.

Lemma keys_setitem {V : Type} (d : dict V) (k k' : string) (v : V) :
  In k' (keys (setitem d k v)) -> k' = k \/ In k' (keys d).
Proof.
  induction d as [| [k0 v0] d IH]; simpl.
  - intros [<- | []]; left; reflexivity.
  - destruct (String.eqb k k0) eqn:E; simpl.
    + apply String.eqb_eq in E; subst k0; intros [<- | H]; auto.
    + intros [<- | H]; auto.
      destruct (IH H); auto.
Qed.

Lemma dict_lookup_update_other {V : Type} (e d : dict V) (k : string) :
  ~ In k (keys e) -> dict_lookup (update d e) k = dict_lookup d k.
Proof.
  unfold update; revert d; induction e as [| [k0 v0] e IH]; intros d Hnot; simpl.
  - reflexivity.
  - rewrite IH by (intros H; apply Hnot; right; exact H).
    apply dict_lookup_setitem_other.
    intros ->; apply Hnot; left; reflexivity.
Qed.

Lemma getitem_keys {V : Type} (d : dict V) (k : string) :
  In k (keys d) -> exists v, getitem d k = Return v.
Proof.
  unfold getitem; induction d as [| [k0 v0] d IH]; simpl.
  - intros [].
  - intros [-> | H].
    + rewrite String.eqb_refl; eauto.
    + destruct (String.eqb k k0); eauto.
Qed.

Lemma getitem_lookup {V : Type} (d : dict V) (k : string) (v : V) :
  dict_lookup d k = Some v -> getitem d k = Return v.
Proof. unfold getitem; intros ->; reflexivity. Qed.

Lemma dict_lookup_keys {V : Type} (d : dict V) (k : string) (v : V) :
  dict_lookup d k = Some v -> In k (keys d).
Proof.
  induction d as [| [k0 v0] d IH]; simpl.
  - discriminate.
  - destruct (String.eqb k k0) eqn:E.
    + apply String.eqb_eq in E; auto.
    + auto.
Qed.

(** ** The JSON fields of one element *)

Lemma nonempty_map {A B : Type} (f : A -> B) (l : list A) :
  nonempty (map f l) = nonempty l.
Proof. destruct l; reflexivity. Qed.

(** What one turn of the loop of [get_channel_items_json] does with the
    catalog of [rss_parser]. *)
Lemma get_channel_items_json_step_eq (e : Element) (el : string) (result : dict PyVal) :
  get_channel_items_json_step channel_elements_dict e el result
  = Return match find e el with
           | Some found =>
               if String.eqb el "category" then
                 if nonempty (findall e "category")
                 then setitem result "Categories" (PyList (map of_text (map text (findall e "category"))))
                 else result
               else setitem result el (of_text (text found))
           | None => result
           end.
Proof.
  unfold get_channel_items_json_step.
  destruct (find e el) as [found |]; [| reflexivity].
  destruct (String.eqb el "category") eqn:E; [| reflexivity].
  apply String.eqb_eq in E; subst el.
  rewrite nonempty_map; destruct (nonempty (findall e "category")); reflexivity.
Qed.

(** The loop over the item keys is the loop over the channel keys, run on
    an item. *)
Lemma get_json_field_eq (item : Element) (el : string) (items_dict : dict PyVal) :
  get_json_field channel_elements_dict item el items_dict
  = get_channel_items_json_step channel_elements_dict item el items_dict.
Proof. reflexivity. Qed.

Section JsonFields.

Variable e : Element.
Variable els : list string.

Lemma json_fields_total (result : dict PyVal) :
  exists fields, for_each (get_channel_items_json_step channel_elements_dict e) els result = Return fields.
Proof.
  apply for_each_total; intros el d _.
  rewrite get_channel_items_json_step_eq; eauto.
Qed.

(** A scalar element that is found is stored under its own name. *)
Lemma json_fields_scalar (el : string) (found : Element) (result fields : dict PyVal) :
  In el els -> el <> "category" -> el <> "Categories" ->
  find e el = Some found ->
  for_each (get_channel_items_json_step channel_elements_dict e) els result = Return fields ->
  dict_lookup fields el = Some (of_text (text found)).
Proof.
  intros Hin Hcat Hlabel Hfound.
  apply (for_each_establishes
           (fun d => dict_lookup d el = Some (of_text (text found))) _ els el Hin).
  - intros d d'; rewrite get_channel_items_json_step_eq, Hfound.
    apply String.eqb_neq in Hcat; rewrite Hcat.
    intros [= <-]; apply dict_lookup_setitem_same.
  - intros el' d d' _ Hd; rewrite get_channel_items_json_step_eq.
    intros [= <-].
    destruct (find e el') as [found' |] eqn:Hfound'; [| exact Hd].
    destruct (String.eqb el' "category") eqn:E.
    + destruct (nonempty (findall e "category")); [| exact Hd].
      rewrite dict_lookup_setitem_other; assumption.
    + destruct (String.eqb_spec el el') as [<- | Hne].
      * rewrite Hfound in Hfound'; injection Hfound' as <-.
        apply dict_lookup_setitem_same.
      * rewrite dict_lookup_setitem_other; assumption.
Qed.

(** The categories, when there are some, are stored as a list under the
    label. *)
Lemma json_fields_categories (result fields : dict PyVal) :
  In "category" els -> ~ In "Categories" els ->
  findall e "category" <> [] ->
  for_each (get_channel_items_json_step channel_elements_dict e) els result = Return fields ->
  dict_lookup fields "Categories" = Some (PyList (map of_text (map text (findall e "category")))).
Proof.
  intros Hin Hlabel Hsome.
  assert (Hfind : exists found, find e "category" = Some found).
  { unfold find, findall in *.
    induction (children e) as [| c cs IH]; simpl in *; [congruence |].
    destruct (String.eqb (tag c) "category"); eauto. }
  destruct Hfind as (found & Hfound).
  assert (Hnonempty : nonempty (findall e "category") = true)
    by (destruct (findall e "category"); [congruence | reflexivity]).
  apply (for_each_establishes
           (fun d => dict_lookup d "Categories"
                     = Some (PyList (map of_text (map text (findall e "category")))))
           _ els "category" Hin).
  - intros d d'; rewrite get_channel_items_json_step_eq, Hfound, Hnonempty; simpl.
    intros [= <-]; apply dict_lookup_setitem_same.
  - intros el' d d' Hel' Hd; rewrite get_channel_items_json_step_eq.
    intros [= <-].
    destruct (find e el') as [found' |]; [| exact Hd].
    destruct (String.eqb el' "category").
    + rewrite Hnonempty; apply dict_lookup_setitem_same.
    + rewrite dict_lookup_setitem_other; [exact Hd |].
      intros <-; exact (Hlabel Hel').
Qed.

(** Every key is the label of the categories or the name of a scalar
    element that was found. *)
Lemma json_fields_keys (fields : dict PyVal) (k : string) :
  for_each (get_channel_items_json_step channel_elements_dict e) els [] = Return fields ->
  In k (keys fields) ->
  k = "Categories" \/ (In k els /\ k <> "category" /\ find e k <> None).
Proof.
  intros Hrun; revert k.
  apply (for_each_invariant
           (fun d => forall k, In k (keys d) ->
              k = "Categories" \/ (In k els /\ k <> "category" /\ find e k <> None))
           (get_channel_items_json_step channel_elements_dict e) els) with (s := []) (s' := fields); [| intros k [] | exact Hrun].
  intros el d d' Hel Hd; rewrite get_channel_items_json_step_eq.
  intros [= <-] k Hk.
  destruct (find e el) as [found |] eqn:Hfound; [| auto].
  destruct (String.eqb el "category") eqn:E.
  - destruct (nonempty (findall e "category")); [| auto].
    apply keys_setitem in Hk as [-> | Hk]; auto.
  - apply keys_setitem in Hk as [-> | Hk]; [| auto].
    right; repeat split; [exact Hel | | congruence].
    apply String.eqb_neq; exact E.
Qed.

End JsonFields.



Lemma channel_keys_not_Categories : ~ In "Categories" (keys channel_elements_dict).
Proof. simpl; intuition discriminate. Qed.

Lemma item_keys_not_Categories : ~ In "Categories" (keys item_elements_dict).
Proof. simpl; intuition discriminate. Qed.

(** ** The keys of the JSON objects *)


(** ** The limit *)

Lemma get_json_item_total (item : Element) :
  exists items_dict,
    get_json_item channel_elements_dict item_elements_dict item = Return items_dict.
Proof. exact (json_fields_total item (keys item_elements_dict) []). Qed.

(** The loop over the items returns, and it appends as many objects as the
    limit, lowered by the count so far, lets through. *)
Lemma get_json_items_length (items : list Element) (limit : option Z) :
  forall (count : Z) (items_list : list PyVal),
  exists emitted,
    get_json_items channel_elements_dict item_elements_dict items limit count items_list
    = Return (extend items_list emitted) /\
    length emitted = match limit with
                     | Some l => Nat.min (Z.to_nat (l - count)) (length items)
                     | None => length items
                     end.
Proof.
  unfold extend; induction items as [| item items IH]; intros count items_list; simpl.
  - exists []; rewrite app_nil_r; split; [reflexivity |].
    destruct limit; [rewrite Nat.min_0_r |]; reflexivity.
  - destruct limit as [l |]; simpl.
    + destruct (Z.leb_spec l count) as [Hstop | Hgo].
      * exists []; rewrite app_nil_r; split; [reflexivity |].
        replace (Z.to_nat (l - count)) with 0%nat by lia; reflexivity.
      * destruct (get_json_item_total item) as (items_dict & ->); simpl.
        destruct (IH (count + 1) (append items_list (PyDict items_dict)))
          as (emitted & -> & Hlen).
        exists (PyDict items_dict :: emitted); unfold append; rewrite <- app_assoc.
        split; [reflexivity |].
        simpl; rewrite Hlen; lia.
    + destruct (get_json_item_total item) as (items_dict & ->); simpl.
      destruct (IH (count + 1) (append items_list (PyDict items_dict)))
        as (emitted & -> & Hlen).
      exists (PyDict items_dict :: emitted); unfold append; rewrite <- app_assoc.
      split; [reflexivity |].
      simpl; rewrite Hlen; reflexivity.
Qed.

(** What the turn of [get_json_output] for one channel leaves in [output]. *)
Lemma get_json_channel_eq (limit : option Z) (channel : Element) (output : dict PyVal) :
  exists fields items_list,
    get_channel_items_json channel_elements_dict channel = Return fields /\
    length items_list = match limit with
                        | Some l => Nat.min (Z.to_nat l) (length (findall channel "item"))
                        | None => length (findall channel "item")
                        end /\
    get_json_channel channel_elements_dict item_elements_dict limit channel output
    = Return (if nonempty items_list
              then setitem (update output fields) "items" (PyList items_list)
              else update output fields).
Proof.
  destruct (json_fields_total channel (keys channel_elements_dict) []) as (fields & Hfields).
  destruct (get_json_items_length (findall channel "item") limit 0 [])
    as (items_list & Hitems & Hlen).
  exists fields, items_list; split; [exact Hfields |]; split.
  - rewrite Hlen; destruct limit; [rewrite Z.sub_0_r |]; reflexivity.
  - unfold get_json_channel, get_channel_items_json.
    rewrite Hfields; simpl; rewrite Hitems; simpl.
    destruct items_list; reflexivity.
Qed.

Lemma channel_fields_have_no_items (channel : Element) (fields : dict PyVal) :
  get_channel_items_json channel_elements_dict channel = Return fields ->
  ~ In "items" (keys fields).
Proof.
  intros Hfields Hin.
  destruct (json_fields_keys channel (keys channel_elements_dict) fields "items" Hfields Hin)
    as [H | (H & _)]; [discriminate H |].
  simpl in H; intuition discriminate.
Qed.

Lemma get_output_items_no_limit (dict1 dict2 : dict string) (items : list Element) :
  forall (count : Z) (output : list string),
    get_output_items dict1 dict2 items None count output
    = for_each (get_output_item dict1 dict2) items output.
Proof.
  induction items as [| item items IH]; intros count output; simpl.
  - reflexivity.
  - destruct (get_output_item dict1 dict2 item output); simpl; [apply IH | reflexivity].
Qed.

(** ** The text lines of one element *)

Lemma get_channel_items_step_total (dict_ : dict string) (channel : Element)
    (el : string) (result : list string) :
  In el (keys dict_) ->
  exists lines,
    get_channel_items_step dict_ channel el result = Return (extend result lines).
Proof.
  intros Hel; unfold get_channel_items_step, append, extend.
  destruct (getitem_keys dict_ el Hel) as (label & ->); simpl.
  destruct (find channel el) as [found |]; [| exists []; rewrite app_nil_r; reflexivity].
  destruct (String.eqb el "category"); [| eauto].
  destruct (nonempty _); [eauto | exists []; rewrite app_nil_r; reflexivity].
Qed.

Lemma get_channel_items_total (dict_ : dict string) (channel : Element) :
  exists lines, get_channel_items dict_ channel = Return lines.
Proof.
  apply for_each_total; intros el result Hel.
  destruct (get_channel_items_step_total dict_ channel el result Hel) as (lines & ->); eauto.
Qed.

(** A line that the turn for [el0] appends is among the lines of the
    channel. *)
Lemma get_channel_items_keeps (dict_ : dict string) (channel : Element)
    (el0 line : string) (lines : list string) :
  In el0 (keys dict_) ->
  (forall result,
     get_channel_items_step dict_ channel el0 result = Return (append result line)) ->
  get_channel_items dict_ channel = Return lines ->
  In line lines.
Proof.
  intros Hel0 Hturn.
  apply (for_each_establishes (fun result => In line result) _ (keys dict_) el0 Hel0).
  - intros result result'; rewrite Hturn; intros [= <-].
    apply in_or_app; right; left; reflexivity.
  - intros el result result' Hel Hin.
    destruct (get_channel_items_step_total dict_ channel el result Hel) as (more & ->).
    intros [= <-]; apply in_or_app; left; exact Hin.
Qed.


(** A turn of the loop over the item keys appends, when it returns. *)
Lemma get_output_field_appends (item : Element) (el : string) (output output' : list string) :
  get_output_field channel_elements_dict item_elements_dict item el output = Return output' ->
  exists lines, output' = extend output lines.
Proof.
  unfold get_output_field, append, extend.
  destruct (find item el) as [found |];
    [| intros [= <-]; exists []; rewrite app_nil_r; reflexivity].
  destruct (String.eqb el "category").
  - destruct (nonempty _);
      [| intros [= <-]; exists []; rewrite app_nil_r; reflexivity].
    intros H.
    apply bind_Return_inv in H as (label & _ & H).
    apply bind_Return_inv in H as (joined & _ & H).
    injection H as <-; eauto.
  - destruct (String.eqb el "<description>"); [intros [= <-]; eauto |].
    intros H; apply bind_Return_inv in H as (label & _ & H).
    injection H as <-; eauto.
Qed.


(** ** Elements without text *)

(** C5 does not hold as worded: for a channel whose title is
    present without text, the text renderer does not emit the label
    followed by nothing, and the JSON renderer does not store the empty
    string. *)
Lemma empty_title_not_empty_string :
  rss_parser plain_fromstring empty_title_xml None false
  <> Return ["Feed: " ++ newline] /\
  (parsed_xml <- plain_fromstring empty_title_xml ;;
   get_json_object channel_elements_dict item_elements_dict parsed_xml None)
  <> Return [("title", PyStr EmptyString)].
Proof. split; vm_compute; discriminate. Qed.

(** C5, amended: a scalar element of a catalog that is present without
    text has the value [None], not the empty string.  In a channel the text
    renderer emits its label followed by None and the JSON renderer stores
    null under its name; in an item the turn of the text renderer for it
    appends its label followed by None and the JSON renderer stores null
    under its name. *)
Theorem missing_text_is_None (parent found : Element) (el label : string) :
  find parent el = Some found ->
  text found = None ->
  el <> "category" ->
  (dict_lookup channel_elements_dict el = Some label ->
   (exists lines,
      get_channel_items channel_elements_dict parent = Return lines /\
      In (label ++ ": None") lines) /\
   (exists fields,
      get_channel_items_json channel_elements_dict parent = Return fields /\
      dict_lookup fields el = Some PyNone)) /\
  (dict_lookup item_elements_dict el = Some label ->
   (forall output,
      get_output_field channel_elements_dict item_elements_dict parent el output
      = Return (append output (label ++ ": None"))) /\
   (exists items_dict,
      get_json_item channel_elements_dict item_elements_dict parent = Return items_dict /\
      dict_lookup items_dict el = Some PyNone)).
Proof.
  intros Hfound Htext Hcat.
  assert (Hneq : String.eqb el "category" = false) by (apply String.eqb_neq; exact Hcat).
  split; intros Hlabel; split.
  - destruct (get_channel_items_total channel_elements_dict parent) as (lines & Hrun).
    exists lines; split; [exact Hrun |].
    apply (get_channel_items_keeps channel_elements_dict parent el); [| | exact Hrun].
    + exact (dict_lookup_keys _ _ _ Hlabel).
    + intros result; unfold get_channel_items_step.
      rewrite Hfound, Hneq, (getitem_lookup _ _ _ Hlabel), Htext; reflexivity.
  - destruct (json_fields_total parent (keys channel_elements_dict) []) as (fields & Hrun).
    exists fields; split; [exact Hrun |].
    change PyNone with (of_text None); rewrite <- Htext.
    apply (json_fields_scalar parent (keys channel_elements_dict) el found [] fields);
      try assumption.
    + exact (dict_lookup_keys _ _ _ Hlabel).
    + intros ->; discriminate Hlabel.
  - intros output; unfold get_output_field.
    rewrite Hfound, Hneq, (getitem_lookup _ _ _ Hlabel), Htext.
    destruct (String.eqb_spec el "<description>") as [-> | _]; [discriminate Hlabel |].
    reflexivity.
  - destruct (json_fields_total parent (keys item_elements_dict) []) as (fields & Hrun).
    exists fields; split; [exact Hrun |].
    change PyNone with (of_text None); rewrite <- Htext.
    apply (json_fields_scalar parent (keys item_elements_dict) el found [] fields);
      try assumption.
    + exact (dict_lookup_keys _ _ _ Hlabel).
    + intros ->; discriminate Hlabel.
Qed.

Lemma missing_text_is_None_witness :
  (exists lines,
     get_channel_items channel_elements_dict
       (mkElement "channel" None [mkElement "title" None []]) = Return lines /\
     In ("Feed" ++ ": None") lines) /\
  (exists fields,
     get_channel_items_json channel_elements_dict
       (mkElement "channel" None [mkElement "title" None []]) = Return fields /\
     dict_lookup fields "title" = Some PyNone).
Proof.
  apply (missing_text_is_None (mkElement "channel" None [mkElement "title" None []])
           (mkElement "title" None []) "title" "Feed");
    [reflexivity | reflexivity | discriminate | reflexivity].
Defined.

(** ** The description of an item *)



(** ** Where the program departs from its description *)

(** C3: for the channel with the categories a and b, the text renderer
    emits the label, a colon and the list as Python prints it, where the
    turn of the items for the same categories emits the label and the
    values joined by commas. *)
Theorem channel_categories_line :
  rss_parser plain_fromstring categories_xml None false
  = Return ["Categories: ['a', 'b']" ++ newline] /\
  get_output_field channel_elements_dict item_elements_dict
    (mkElement "item" None [mkElement "category" (Some "a") [];
                            mkElement "category" (Some "b") []])
    "category" []
  = Return ["Categories a, b"].
Proof. split; vm_compute; reflexivity. Qed.

(** C4: the channel catalog has no key managingEditor, and for a channel
    with a title and a managing editor neither renderer emits anything for
    the editor. *)
Theorem managing_editor_is_dropped :
  dict_lookup channel_elements_dict "managingEditor" = None /\
  dict_lookup channel_elements_dict "managinEditor" = Some "Editor" /\
  rss_parser plain_fromstring editor_xml None false = Return ["Feed: T" ++ newline] /\
  (parsed_xml <- plain_fromstring editor_xml ;;
   get_json_object channel_elements_dict item_elements_dict parsed_xml None)
  = Return [("title", PyStr "T")].
Proof. repeat split; vm_compute; reflexivity. Qed.

(** * Further properties of the renderers *)

(** ** The limit as a prefix of the items *)

Lemma for_each_ext_in {A S : Type} (body body' : A -> S -> outcome S) (xs : list A) :
  (forall x s, In x xs -> body x s = body' x s) ->
  forall s, for_each body xs s = for_each body' xs s.
Proof.
  induction xs as [| x xs IH]; intros Hsame s; simpl.
  - reflexivity.
  - rewrite (Hsame x s (or_introl eq_refl)).
    destruct (body' x s) as [s1 | e]; simpl; [| reflexivity].
    apply IH; intros y t Hy; apply Hsame; right; exact Hy.
Qed.

Lemma get_output_items_from (dict1 dict2 : dict string) (items : list Element) (l : Z) :
  forall (count : Z) (output : list string),
    get_output_items dict1 dict2 items (Some l) count output
    = for_each (get_output_item dict1 dict2) (firstn (Z.to_nat (l - count)) items) output.
Proof.
  induction items as [| item items IH]; intros count output; simpl.
  - rewrite firstn_nil; reflexivity.
  - destruct (Z.leb_spec l count) as [Hstop | Hgo].
    + replace (Z.to_nat (l - count)) with 0%nat by lia; reflexivity.
    + replace (Z.to_nat (l - count)) with (S (Z.to_nat (l - (count + 1)))) by lia; simpl.
      destruct (get_output_item dict1 dict2 item output); simpl; [apply IH | reflexivity].
Qed.

(** X1: the loop of [get_output] over the items, with its counter and its
    [break], is the plain loop over the first [limit] items; a limit below
    zero counts as zero. *)
Theorem get_output_items_firstn (dict1 dict2 : dict string) (items : list Element)
    (l : Z) (output : list string) :
  get_output_items dict1 dict2 items (Some l) 0 output
  = for_each (get_output_item dict1 dict2) (firstn (Z.to_nat l) items) output.
Proof. rewrite get_output_items_from, Z.sub_0_r; reflexivity. Qed.

Lemma get_json_items_from (dict1 dict2 : dict string) (items : list Element) (l : Z) :
  forall (count : Z) (items_list : list PyVal),
    get_json_items dict1 dict2 items (Some l) count items_list
    = for_each (fun item acc =>
                  items_dict <- get_json_item dict1 dict2 item ;;
                  Return (append acc (PyDict items_dict)))
               (firstn (Z.to_nat (l - count)) items) items_list.
Proof.
  induction items as [| item items IH]; intros count items_list; simpl.
  - rewrite firstn_nil; reflexivity.
  - destruct (Z.leb_spec l count) as [Hstop | Hgo].
    + replace (Z.to_nat (l - count)) with 0%nat by lia; reflexivity.
    + replace (Z.to_nat (l - count)) with (S (Z.to_nat (l - (count + 1)))) by lia; simpl.
      destruct (get_json_item dict1 dict2 item); simpl; [apply IH | reflexivity].
Qed.

Lemma get_json_items_no_limit (dict1 dict2 : dict string) (items : list Element) :
  forall (count : Z) (items_list : list PyVal),
    get_json_items dict1 dict2 items None count items_list
    = for_each (fun item acc =>
                  items_dict <- get_json_item dict1 dict2 item ;;
                  Return (append acc (PyDict items_dict)))
               items items_list.
Proof.
  induction items as [| item items IH]; intros count items_list; simpl.
  - reflexivity.
  - destruct (get_json_item dict1 dict2 item); simpl; [apply IH | reflexivity].
Qed.

(** X2: the loop of [get_json_output] over the items, with its counter and
    its [break], is the plain loop that appends the object of each of the
    first [limit] items. *)
Theorem get_json_items_firstn (dict1 dict2 : dict string) (items : list Element)
    (l : Z) (items_list : list PyVal) :
  get_json_items dict1 dict2 items (Some l) 0 items_list
  = for_each (fun item acc =>
                items_dict <- get_json_item dict1 dict2 item ;;
                Return (append acc (PyDict items_dict)))
             (firstn (Z.to_nat l) items) items_list.
Proof. rewrite get_json_items_from, Z.sub_0_r; reflexivity. Qed.

(** X3: a limit that no channel of the document exceeds is no limit: both
    renderers give what they give without one. *)
Theorem limit_at_least_items_is_no_limit (dict1 dict2 : dict string)
    (parsed_xml : Element) (l : Z) :
  Forall (fun channel => Z.of_nat (length (findall channel "item")) <= l)
         (findall parsed_xml "channel") ->
  get_output dict1 dict2 parsed_xml (Some l) = get_output dict1 dict2 parsed_xml None /\
  get_json_output dict1 dict2 parsed_xml (Some l)
  = get_json_output dict1 dict2 parsed_xml None.
Proof.
  intros Hfew; rewrite Forall_forall in Hfew.
  unfold get_json_output, get_json_object, get_output; split; [| f_equal];
    apply for_each_ext_in; intros channel out Hchannel;
    specialize (Hfew channel Hchannel); simpl in Hfew.
  - unfold get_output_channel.
    destruct (get_channel_items dict1 channel); simpl; [| reflexivity].
    destruct (last_item _); simpl; [| reflexivity].
    destruct (set_last_item _ _); simpl; [| reflexivity].
    rewrite get_output_items_from, firstn_all2 by lia.
    rewrite get_output_items_no_limit; reflexivity.
  - unfold get_json_channel.
    destruct (get_channel_items_json dict1 channel); simpl; [| reflexivity].
    rewrite get_json_items_from, firstn_all2 by lia.
    rewrite get_json_items_no_limit; reflexivity.
Qed.

Lemma limit_at_least_items_is_no_limit_witness :
  get_output channel_elements_dict item_elements_dict
    (mkElement "rss" None
       [mkElement "channel" None
          [mkElement "title" (Some "T") [];
           mkElement "item" None [mkElement "title" (Some "A") []];
           mkElement "item" None [mkElement "title" (Some "B") []]]])
    (Some 2)
  = get_output channel_elements_dict item_elements_dict
      (mkElement "rss" None
         [mkElement "channel" None
            [mkElement "title" (Some "T") [];
             mkElement "item" None [mkElement "title" (Some "A") []];
             mkElement "item" None [mkElement "title" (Some "B") []]]])
      None.
Proof.
  apply (limit_at_least_items_is_no_limit channel_elements_dict item_elements_dict
           (mkElement "rss" None
              [mkElement "channel" None
                 [mkElement "title" (Some "T") [];
                  mkElement "item" None [mkElement "title" (Some "A") []];
                  mkElement "item" None [mkElement "title" (Some "B") []]]])
           2).
  repeat constructor; simpl; lia.
Defined.

Lemma get_output_item_appends (item : Element) (output output' : list string) :
  get_output_item channel_elements_dict item_elements_dict item output = Return output' ->
  exists lines, output' = extend output lines.
Proof.
  apply (for_each_invariant
           (fun out => exists lines, out = extend output lines)
           (get_output_field channel_elements_dict item_elements_dict item)
           (keys item_elements_dict)).
  - intros el out out' _ (lines & ->) Hout.
    apply get_output_field_appends in Hout as (more & ->).
    exists (lines ++ more)%list; unfold extend; rewrite app_assoc; reflexivity.
  - exists []; unfold extend; rewrite app_nil_r; reflexivity.
Qed.

Lemma get_output_items_appends (items : list Element) (output output' : list string) :
  for_each (get_output_item channel_elements_dict item_elements_dict) items output
  = Return output' ->
  exists lines, output' = extend output lines.
Proof.
  apply (for_each_invariant
           (fun out => exists lines, out = extend output lines)
           (get_output_item channel_elements_dict item_elements_dict) items).
  - intros item out out' _ (lines & ->) Hout.
    apply get_output_item_appends in Hout as (more & ->).
    exists (lines ++ more)%list; unfold extend; rewrite app_assoc; reflexivity.
  - exists []; unfold extend; rewrite app_nil_r; reflexivity.
Qed.

Lemma firstn_le_split {A : Type} (n n' : nat) (xs : list A) :
  (n <= n')%nat -> exists rest, firstn n' xs = (firstn n xs ++ rest)%list.
Proof.
  intros Hle; exists (skipn n (firstn n' xs)).
  rewrite <- (firstn_skipn n (firstn n' xs)) at 1.
  rewrite firstn_firstn, Nat.min_l by exact Hle; reflexivity.
Qed.

(** X4: raising the limit only appends lines.  When the loop over the
    items of [get_output] returns under a limit, it returns under every
    smaller limit, and what it returns there is a prefix of what it returns
    under the larger one. *)
Theorem raising_limit_only_appends (items : list Element) (l l' : Z)
    (output output' : list string) :
  l <= l' ->
  get_output_items channel_elements_dict item_elements_dict items (Some l') 0 output
  = Return output' ->
  exists shorter more,
    get_output_items channel_elements_dict item_elements_dict items (Some l) 0 output
    = Return shorter /\
    output' = extend shorter more.
Proof.
  intros Hle; rewrite !get_output_items_from, !Z.sub_0_r.
  destruct (firstn_le_split (Z.to_nat l) (Z.to_nat l') items) as (rest & ->); [lia |].
  rewrite for_each_app; intros Hrun.
  apply bind_Return_inv in Hrun as (shorter & -> & Hrest).
  apply get_output_items_appends in Hrest as (more & ->).
  exists shorter, more; split; reflexivity.
Qed.

Lemma raising_limit_only_appends_witness :
  exists shorter more,
    get_output_items channel_elements_dict item_elements_dict
      [mkElement "item" None [mkElement "title" (Some "A") []];
       mkElement "item" None [mkElement "title" (Some "B") []]]
      (Some 1) 0 ["Feed: T"]
    = Return shorter /\
    ["Feed: T"; "Title: A"; "Title: B"] = extend shorter more.
Proof.
  apply (raising_limit_only_appends
           [mkElement "item" None [mkElement "title" (Some "A") []];
            mkElement "item" None [mkElement "title" (Some "B") []]]
           1 2 ["Feed: T"] ["Feed: T"; "Title: A"; "Title: B"]);
    [lia | reflexivity].
Defined.

(** ** One entry for each element that is found *)

Lemma find_hd_findall (e : Element) (name : string) :
  find e name = hd_error (findall e name).
Proof.
  unfold find, findall; induction (children e) as [| c cs IH]; simpl.
  - reflexivity.
  - destruct (String.eqb (tag c) name); [reflexivity | exact IH].
Qed.

Lemma find_Some_findall (e found : Element) (name : string) :
  find e name = Some found -> nonempty (findall e name) = true.
Proof.
  rewrite find_hd_findall; destruct (findall e name); [discriminate | reflexivity].
Qed.

Lemma get_channel_items_count (channel : Element) (els : list string) :
  forall result result',
    for_each (get_channel_items_step channel_elements_dict channel) els result
    = Return result' ->
    length result'
    = (length result
       + length (filter (fun el => match find channel el with
                                   | Some _ => true
                                   | None => false
                                   end) els))%nat.
Proof.
  induction els as [| el els IH]; intros result result' Hrun; simpl in Hrun |- *.
  - injection Hrun as <-; lia.
  - apply bind_Return_inv in Hrun as (result1 & Hturn & Hrun).
    rewrite (IH _ _ Hrun); clear IH Hrun.
    unfold get_channel_items_step in Hturn.
    destruct (find channel el) as [found |] eqn:Hfound.
    + assert (length result1 = S (length result)); [| simpl; lia].
      destruct (String.eqb el "category") eqn:E.
      * apply String.eqb_eq in E; subst el.
        rewrite nonempty_map, (find_Some_findall _ _ _ Hfound) in Hturn.
        apply bind_Return_inv in Hturn as (label & _ & Hturn).
        injection Hturn as <-; unfold append; rewrite length_app; simpl; lia.
      * apply bind_Return_inv in Hturn as (label & _ & Hturn).
        injection Hturn as <-; unfold append; rewrite length_app; simpl; lia.
    + injection Hturn as <-; lia.
Qed.

(** X5: [get_channel_items] returns one line for each key of the catalog
    that the channel has a child for, the categories counting as one. *)
Theorem get_channel_items_length (channel : Element) :
  exists lines,
    get_channel_items channel_elements_dict channel = Return lines /\
    length lines
    = length (filter (fun el => match find channel el with
                                | Some _ => true
                                | None => false
                                end) (keys channel_elements_dict)).
Proof.
  destruct (get_channel_items_total channel_elements_dict channel) as (lines & Hrun).
  exists lines; split; [exact Hrun |].
  exact (get_channel_items_count channel _ _ _ Hrun).
Qed.

Lemma setitem_fresh {V : Type} (d : dict V) (k : string) (v : V) :
  ~ In k (keys d) -> setitem d k v = (d ++ [(k, v)])%list.
Proof.
  induction d as [| [k0 v0] d IH]; intros Hfresh; simpl.
  - reflexivity.
  - destruct (String.eqb_spec k k0) as [-> | _].
    + exfalso; apply Hfresh; left; reflexivity.
    + rewrite IH by (intros H; apply Hfresh; right; exact H); reflexivity.
Qed.

(** The keys of the object that the loop over [els] builds on [acc], when
    the names it writes under are new and distinct. *)
Lemma json_fields_keys_exact (e : Element) (els : list string) :
  forall acc fields,
    NoDup (map (fun el => if String.eqb el "category" then "Categories" else el) els) ->
    (forall el, In el els ->
       ~ In (if String.eqb el "category" then "Categories" else el) (keys acc)) ->
    for_each (get_channel_items_json_step channel_elements_dict e) els acc = Return fields ->
    keys fields
    = (keys acc
       ++ map (fun el => if String.eqb el "category" then "Categories" else el)
            (filter (fun el => match find e el with
                               | Some _ => true
                               | None => false
                               end) els))%list.
Proof.
  induction els as [| el els IH]; intros acc fields Hnodup Hfresh Hrun;
    simpl in Hrun |- *.
  - injection Hrun as <-; rewrite app_nil_r; reflexivity.
  - rewrite get_channel_items_json_step_eq in Hrun; simpl in Hrun.
    inversion Hnodup as [| k ks Hk Hks]; subst.
    destruct (find e el) as [found |] eqn:Hfound.
    + assert (Hacc : exists v,
                 (if String.eqb el "category"
                  then if nonempty (findall e "category")
                       then setitem acc "Categories"
                              (PyList (map of_text (map text (findall e "category"))))
                       else acc
                  else setitem acc el (of_text (text found)))
                 = (acc ++ [(if String.eqb el "category" then "Categories" else el, v)])%list).
      { specialize (Hfresh el (or_introl eq_refl)).
        destruct (String.eqb el "category") eqn:E.
        - apply String.eqb_eq in E; subst el.
          rewrite (find_Some_findall _ _ _ Hfound).
          eexists; apply setitem_fresh; exact Hfresh.
        - eexists; apply setitem_fresh; exact Hfresh. }
      destruct Hacc as (v & Hacc); rewrite Hacc in Hrun.
      assert (Hfresh' : forall el', In el' els ->
                ~ In (if String.eqb el' "category" then "Categories" else el')
                     (keys (acc ++ [(if String.eqb el "category" then "Categories" else el,
                                     v)])%list)).
      { intros el' Hel' Hin.
        unfold keys in Hin; rewrite map_app in Hin; simpl in Hin.
        apply in_app_or in Hin as [Hin | [Hin | []]].
        - exact (Hfresh el' (or_intror Hel') Hin).
        - apply Hk; rewrite Hin.
          exact (in_map (fun x => if String.eqb x "category" then "Categories" else x)
                        els el' Hel'). }
      rewrite (IH _ _ Hks Hfresh' Hrun).
      unfold keys; rewrite map_app; simpl; rewrite <- app_assoc; reflexivity.
    + apply (IH _ _ Hks); [| exact Hrun].
      intros el' Hel'; apply Hfresh; right; exact Hel'.
Qed.

Lemma json_channel_keys_eq (channel : Element) (fields : dict PyVal) :
  get_channel_items_json channel_elements_dict channel = Return fields ->
  keys fields
  = map (fun el => if String.eqb el "category" then "Categories" else el)
      (filter (fun el => match find channel el with
                         | Some _ => true
                         | None => false
                         end) (keys channel_elements_dict)).
Proof.
  intros Hrun.
  apply (json_fields_keys_exact channel (keys channel_elements_dict) [] fields);
    [| intros el _ [] | exact Hrun].
  vm_compute; repeat constructor; simpl; intuition discriminate.
Qed.

(** X6: the keys of the JSON object of a channel are, in the order of the
    catalog and whatever the order of the children, the names of the
    catalog's elements that the channel has a child for, with the label
    Categories in the place of category. *)
Theorem get_channel_items_json_keys (channel : Element) :
  exists fields,
    get_channel_items_json channel_elements_dict channel = Return fields /\
    keys fields
    = map (fun el => if String.eqb el "category" then "Categories" else el)
        (filter (fun el => match find channel el with
                           | Some _ => true
                           | None => false
                           end) (keys channel_elements_dict)).
Proof.
  destruct (json_fields_total channel (keys channel_elements_dict) []) as (fields & Hrun).
  exists fields; split; [exact Hrun |].
  exact (json_channel_keys_eq channel fields Hrun).
Qed.

(** X7: for every channel the two renderers emit the same number of
    entries: [get_channel_items] returns as many lines as
    [get_channel_items_json] returns keys. *)
Theorem channel_lines_match_json_keys (channel : Element) :
  exists lines fields,
    get_channel_items channel_elements_dict channel = Return lines /\
    get_channel_items_json channel_elements_dict channel = Return fields /\
    length lines = length (keys fields).
Proof.
  destruct (get_channel_items_total channel_elements_dict channel) as (lines & Hlines).
  destruct (json_fields_total channel (keys channel_elements_dict) []) as (fields & Hfields).
  exists lines, fields; repeat split; try assumption.
  rewrite (get_channel_items_count channel _ _ _ Hlines).
  rewrite (json_channel_keys_eq channel fields Hfields), length_map; reflexivity.
Qed.

(** ** Children that are not looked at *)

Lemma find_skip (t : string) (x : option string) (cs1 cs2 : list Element) (c : Element)
    (name : string) :
  tag c <> name ->
  find (mkElement t x (cs1 ++ c :: cs2)) name = find (mkElement t x (cs1 ++ cs2)) name.
Proof.
  intros Hne; unfold find; simpl.
  induction cs1 as [| a cs1 IH]; simpl.
  - apply String.eqb_neq in Hne; rewrite Hne; reflexivity.
  - destruct (String.eqb (tag a) name); [reflexivity | exact IH].
Qed.

Lemma findall_skip (t : string) (x : option string) (cs1 cs2 : list Element) (c : Element)
    (name : string) :
  tag c <> name ->
  findall (mkElement t x (cs1 ++ c :: cs2)) name = findall (mkElement t x (cs1 ++ cs2)) name.
Proof.
  intros Hne; unfold findall; simpl.
  rewrite !filter_app; simpl.
  apply String.eqb_neq in Hne; rewrite Hne; reflexivity.
Qed.

Lemma find_repeated (t : string) (x : option string) (cs1 cs2 : list Element)
    (c0 c : Element) :
  In c0 cs1 -> tag c0 = tag c ->
  find (mkElement t x (cs1 ++ c :: cs2)) (tag c)
  = find (mkElement t x (cs1 ++ cs2)) (tag c).
Proof.
  intros Hin Htag; unfold find; simpl.
  induction cs1 as [| a cs1 IH]; simpl; [destruct Hin |].
  destruct (String.eqb_spec (tag a) (tag c)) as [_ | Hne]; [reflexivity |].
  destruct Hin as [-> | Hin]; [congruence | exact (IH Hin)].
Qed.

(** A child is not looked at under the names [els] when its tag is none of
    them or an earlier child has its tag. *)
Lemma find_unseen (t : string) (x : option string) (cs1 cs2 : list Element)
    (c : Element) (els : list string) :
  ~ In (tag c) els \/ (exists c0, In c0 cs1 /\ tag c0 = tag c) ->
  forall el, In el els ->
    find (mkElement t x (cs1 ++ c :: cs2)) el = find (mkElement t x (cs1 ++ cs2)) el.
Proof.
  intros Hunseen el Hel.
  destruct (String.eqb_spec (tag c) el) as [<- | Hne]; [| apply find_skip; exact Hne].
  destruct Hunseen as [Hnot | (c0 & Hin & Htag)]; [contradiction |].
  exact (find_repeated t x cs1 cs2 c0 c Hin Htag).
Qed.

Lemma get_channel_items_same (dict_ : dict string) (c1 c2 : Element) :
  (forall el, In el (keys dict_) -> find c1 el = find c2 el) ->
  findall c1 "category" = findall c2 "category" ->
  get_channel_items dict_ c1 = get_channel_items dict_ c2.
Proof.
  intros Hfind Hcategories; apply for_each_ext_in; intros el result Hel.
  unfold get_channel_items_step; rewrite (Hfind el Hel), Hcategories; reflexivity.
Qed.

Lemma get_channel_items_json_same (dict_ : dict string) (c1 c2 : Element) :
  (forall el, In el (keys dict_) -> find c1 el = find c2 el) ->
  findall c1 "category" = findall c2 "category" ->
  get_channel_items_json dict_ c1 = get_channel_items_json dict_ c2.
Proof.
  intros Hfind Hcategories; apply for_each_ext_in; intros el result Hel.
  unfold get_channel_items_json_step; rewrite (Hfind el Hel), Hcategories; reflexivity.
Qed.

(** X8: a child of a channel that is no category and no item, and whose
    tag is not in the channel catalog or is the tag of an earlier child,
    changes nothing: both renderers do for the channel what they do
    without that child. *)
Theorem channel_child_not_looked_at (dict2 : dict string) (limit : option Z)
    (t : string) (x : option string) (cs1 cs2 : list Element) (c : Element) :
  tag c <> "category" -> tag c <> "item" ->
  ~ In (tag c) (keys channel_elements_dict) \/ (exists c0, In c0 cs1 /\ tag c0 = tag c) ->
  (forall output,
     get_output_channel channel_elements_dict dict2 limit
       (mkElement t x (cs1 ++ c :: cs2)) output
     = get_output_channel channel_elements_dict dict2 limit
         (mkElement t x (cs1 ++ cs2)) output) /\
  (forall output,
     get_json_channel channel_elements_dict dict2 limit
       (mkElement t x (cs1 ++ c :: cs2)) output
     = get_json_channel channel_elements_dict dict2 limit
         (mkElement t x (cs1 ++ cs2)) output).
Proof.
  intros Hcategory Hitem Hunseen.
  assert (Hfind := find_unseen t x cs1 cs2 c (keys channel_elements_dict) Hunseen).
  assert (Hcategories := findall_skip t x cs1 cs2 c "category" Hcategory).
  assert (Hitems := findall_skip t x cs1 cs2 c "item" Hitem).
  split; intros output.
  - unfold get_output_channel.
    rewrite (get_channel_items_same _ _ _ Hfind Hcategories), Hitems; reflexivity.
  - unfold get_json_channel.
    rewrite (get_channel_items_json_same _ _ _ Hfind Hcategories), Hitems; reflexivity.
Qed.

Lemma channel_child_not_looked_at_witness :
  get_output_channel channel_elements_dict item_elements_dict None
    (mkElement "channel" None
       ([mkElement "title" (Some "T") []]
        ++ mkElement "title" (Some "U") [] :: [mkElement "link" (Some "L") []]))
    []
  = get_output_channel channel_elements_dict item_elements_dict None
      (mkElement "channel" None
         ([mkElement "title" (Some "T") []] ++ [mkElement "link" (Some "L") []]))
      [].
Proof.
  apply (channel_child_not_looked_at item_elements_dict None "channel" None
           [mkElement "title" (Some "T") []] [mkElement "link" (Some "L") []]
           (mkElement "title" (Some "U") [])).
  - discriminate.
  - discriminate.
  - right; exists (mkElement "title" (Some "T") []); split; [left |]; reflexivity.
Defined.

(** X9: a child of an item that is no category, and whose tag is not in
    the item catalog or is the tag of an earlier child, changes nothing:
    both renderers do for the item what they do without that child. *)
Theorem item_child_not_looked_at (dict1 : dict string)
    (t : string) (x : option string) (cs1 cs2 : list Element) (c : Element) :
  tag c <> "category" ->
  ~ In (tag c) (keys item_elements_dict) \/ (exists c0, In c0 cs1 /\ tag c0 = tag c) ->
  (forall output,
     get_output_item dict1 item_elements_dict (mkElement t x (cs1 ++ c :: cs2)) output
     = get_output_item dict1 item_elements_dict (mkElement t x (cs1 ++ cs2)) output) /\
  get_json_item dict1 item_elements_dict (mkElement t x (cs1 ++ c :: cs2))
  = get_json_item dict1 item_elements_dict (mkElement t x (cs1 ++ cs2)).
Proof.
  intros Hcategory Hunseen.
  assert (Hfind := find_unseen t x cs1 cs2 c (keys item_elements_dict) Hunseen).
  assert (Hcategories := findall_skip t x cs1 cs2 c "category" Hcategory).
  split; [intros output |]; apply for_each_ext_in; intros el out Hel.
  - unfold get_output_field; rewrite (Hfind el Hel), Hcategories; reflexivity.
  - unfold get_json_field; rewrite (Hfind el Hel), Hcategories; reflexivity.
Qed.

Lemma item_child_not_looked_at_witness :
  get_json_item channel_elements_dict item_elements_dict
    (mkElement "item" None
       ([mkElement "title" (Some "A") []] ++ mkElement "guid" (Some "7") [] :: []))
  = get_json_item channel_elements_dict item_elements_dict
      (mkElement "item" None ([mkElement "title" (Some "A") []] ++ [])).
Proof.
  apply (item_child_not_looked_at channel_elements_dict "item" None
           [mkElement "title" (Some "A") []] [] (mkElement "guid" (Some "7") [])).
  - discriminate.
  - left; simpl; intuition discriminate.
Defined.

(** ** How the text renderer fails *)

Lemma for_each_Raise_inv {A S : Type} (body : A -> S -> outcome S) (xs : list A) (e : exn) :
  forall s, for_each body xs s = Raise e -> exists x s0, In x xs /\ body x s0 = Raise e.
Proof.
  induction xs as [| x xs IH]; intros s Hrun; simpl in Hrun.
  - discriminate Hrun.
  - destruct (body x s) as [s1 | e1] eqn:Hturn; simpl in Hrun.
    + destruct (IH s1 Hrun) as (y & s0 & Hy & Hraise).
      exists y, s0; split; [right; exact Hy | exact Hraise].
    + injection Hrun as ->; exists x, s; split; [left; reflexivity | exact Hturn].
Qed.

Lemma all_str_Raise_inv (parts : list (option string)) (e : exn) :
  all_str parts = Raise e -> e = TypeError /\ In None parts.
Proof.
  induction parts as [| [p |] parts IH]; simpl; intros Hrun.
  - discriminate Hrun.
  - destruct (all_str parts) as [ps | e1]; simpl in Hrun; [discriminate Hrun |].
    injection Hrun as ->; destruct (IH eq_refl) as (-> & Hin); auto.
  - injection Hrun as <-; auto.
Qed.

Lemma all_str_None (parts : list (option string)) :
  In None parts -> all_str parts = Raise TypeError.
Proof.
  induction parts as [| [p |] parts IH]; simpl; intros Hin.
  - destruct Hin.
  - destruct Hin as [Hin | Hin]; [discriminate Hin |].
    rewrite (IH Hin); reflexivity.
  - reflexivity.
Qed.

(** A turn of the loop over the item keys fails only in [str.join], on a
    category without text. *)
Lemma get_output_field_Raise_inv (item : Element) (el : string) (output : list string)
    (e : exn) :
  In el (keys item_elements_dict) ->
  get_output_field channel_elements_dict item_elements_dict item el output = Raise e ->
  e = TypeError /\ In None (map text (findall item "category")).
Proof.
  intros Hel; unfold get_output_field.
  destruct (find item el) as [found |]; [| discriminate].
  destruct (String.eqb el "category") eqn:E.
  - apply String.eqb_eq in E; subst el.
    destruct (nonempty _); [| discriminate].
    simpl; unfold py_join.
    destruct (all_str (map text (findall item "category"))) as [ps | e1] eqn:Hjoin;
      simpl; [discriminate |].
    intros [= ->]; exact (all_str_Raise_inv _ _ Hjoin).
  - destruct (String.eqb el "<description>"); [discriminate |].
    destruct (getitem_keys item_elements_dict el Hel) as (label & ->); discriminate.
Qed.

Lemma get_output_item_Raise_inv (item : Element) (output : list string) (e : exn) :
  get_output_item channel_elements_dict item_elements_dict item output = Raise e ->
  e = TypeError /\ In None (map text (findall item "category")).
Proof.
  intros Hrun; apply for_each_Raise_inv in Hrun as (el & out & Hel & Hturn).
  exact (get_output_field_Raise_inv item el out e Hel Hturn).
Qed.

Lemma get_output_items_prefix (items : list Element) (limit : option Z)
    (output : list string) :
  get_output_items channel_elements_dict item_elements_dict items limit 0 output
  = for_each (get_output_item channel_elements_dict item_elements_dict)
      match limit with
      | Some l => firstn (Z.to_nat l) items
      | None => items
      end output.
Proof.
  destruct limit as [l |].
  - rewrite get_output_items_from, Z.sub_0_r; reflexivity.
  - apply get_output_items_no_limit.
Qed.

Lemma last_item_nonempty (output : list string) :
  output <> [] -> exists final, last_item output = Return final.
Proof.
  induction output as [| x output IH]; intros Hne; [congruence |].
  destruct output as [| y output]; [exists x; reflexivity |].
  apply IH; discriminate.
Qed.

Lemma set_last_item_nonempty (output : list string) (x : string) :
  output <> [] -> exists output', set_last_item output x = Return output' /\ output' <> [].
Proof.
  induction output as [| y output IH]; intros Hne; [congruence |].
  destruct output as [| z output]; [exists [x]; split; [reflexivity | discriminate] |].
  destruct IH as (output' & Hset & _); [discriminate |].
  exists (y :: output'); split; [| discriminate].
  change (set_last_item (y :: z :: output) x)
    with (r <- set_last_item (z :: output) x ;; Return (y :: r)).
  rewrite Hset; reflexivity.
Qed.

Lemma filter_nil_Forall {A : Type} (p : A -> bool) (xs : list A) :
  filter p xs = [] -> Forall (fun x => p x = false) xs.
Proof.
  induction xs as [| x xs IH]; simpl; intros Hnone; [constructor |].
  destruct (p x) eqn:Hp; [discriminate Hnone |].
  constructor; [exact Hp | exact (IH Hnone)].
Qed.

Lemma In_firstn {A : Type} (n : nat) (xs : list A) (x : A) :
  In x (firstn n xs) -> In x xs.
Proof.
  intros Hin; rewrite <- (firstn_skipn n xs); apply in_or_app; left; exact Hin.
Qed.

(** The three ways a turn of the loop over the channels can end. *)
Lemma get_output_channel_cases (limit : option Z) (channel : Element)
    (output : list string) :
  (exists output',
     get_output_channel channel_elements_dict item_elements_dict limit channel output
     = Return output' /\ output' <> []) \/
  (get_output_channel channel_elements_dict item_elements_dict limit channel output
   = Raise IndexError /\
   output = [] /\
   Forall (fun el => find channel el = None) (keys channel_elements_dict)) \/
  (get_output_channel channel_elements_dict item_elements_dict limit channel output
   = Raise TypeError /\
   exists item,
     In item match limit with
             | Some l => firstn (Z.to_nat l) (findall channel "item")
             | None => findall channel "item"
             end /\
     In None (map text (findall item "category"))).
Proof.
  unfold get_output_channel.
  destruct (get_channel_items_total channel_elements_dict channel) as (lines & Hlines).
  rewrite Hlines; simpl.
  destruct (extend output lines) as [| x out] eqn:Hout.
  - right; left; split; [reflexivity |].
    apply app_eq_nil in Hout as (-> & ->); split; [reflexivity |].
    pose proof (get_channel_items_count channel _ _ _ Hlines) as Hcount.
    change (length (@nil string)) with 0%nat in Hcount.
    apply Forall_impl
      with (P := fun el => match find channel el with
                           | Some _ => true
                           | None => false
                           end = false).
    { intros el; destruct (find channel el); [discriminate | reflexivity]. }
    apply filter_nil_Forall, length_zero_iff_nil; symmetry; exact Hcount.
  - destruct (last_item_nonempty (x :: out)) as (final & ->); [discriminate |].
    cbv beta iota delta [bind].
    destruct (set_last_item_nonempty (x :: out) (final ++ newline))
      as (output1 & -> & Hne); [discriminate |].
    rewrite get_output_items_prefix.
    destruct (for_each _ _ output1) as [output2 | e] eqn:Hitems.
    + left; exists output2; split; [reflexivity |].
      apply get_output_items_appends in Hitems as (more & ->).
      unfold extend; intros Hnil; apply app_eq_nil in Hnil as (Hnil & _).
      exact (Hne Hnil).
    + right; right.
      apply for_each_Raise_inv in Hitems as (item & out' & Hitem & Hturn).
      apply get_output_item_Raise_inv in Hturn as (-> & Hnone).
      split; [reflexivity |]; exists item; split; assumption.
Qed.

Lemma get_output_channels_Raise_inv (limit : option Z) (channels : list Element) (e : exn) :
  forall output,
    for_each (get_output_channel channel_elements_dict item_elements_dict limit)
      channels output = Raise e ->
    (e = IndexError /\ output = [] /\
     exists channel others,
       channels = channel :: others /\
       Forall (fun el => find channel el = None) (keys channel_elements_dict)) \/
    (e = TypeError /\
     exists channel item,
       In channel channels /\
       In item match limit with
               | Some l => firstn (Z.to_nat l) (findall channel "item")
               | None => findall channel "item"
               end /\
       In None (map text (findall item "category"))).
Proof.
  induction channels as [| channel channels IH]; intros output Hrun; simpl in Hrun.
  - discriminate Hrun.
  - destruct (get_output_channel_cases limit channel output)
      as [(output' & Hturn & Hne) | [(Hturn & -> & Hnone) | (Hturn & item & Hitem & Htext)]];
      rewrite Hturn in Hrun; simpl in Hrun.
    + destruct (IH output' Hrun) as [(_ & Hnil & _) | (-> & c & item & Hc & Hitem & Htext)];
        [contradiction |].
      right; split; [reflexivity |].
      exists c, item; repeat split; [right; exact Hc | exact Hitem | exact Htext].
    + injection Hrun as <-; left; repeat split; eauto.
    + injection Hrun as <-; right; split; [reflexivity |].
      exists channel, item; repeat split; [left; reflexivity | exact Hitem | exact Htext].
Qed.

(** X10: [get_output] fails in two ways only.  It raises [IndexError] when
    the first channel has none of the elements of the channel catalog, and
    [TypeError] when an item within the limit has a category without text;
    it raises nothing else. *)
Theorem get_output_Raise_inv (parsed_xml : Element) (limit : option Z) (e : exn) :
  get_output channel_elements_dict item_elements_dict parsed_xml limit = Raise e ->
  (e = IndexError /\
   exists channel others,
     findall parsed_xml "channel" = channel :: others /\
     Forall (fun el => find channel el = None) (keys channel_elements_dict)) \/
  (e = TypeError /\
   exists channel item,
     In channel (findall parsed_xml "channel") /\
     In item match limit with
             | Some l => firstn (Z.to_nat l) (findall channel "item")
             | None => findall channel "item"
             end /\
     In None (map text (findall item "category"))).
Proof.
  intros Hrun; apply get_output_channels_Raise_inv in Hrun as [(He & _ & H) | H]; auto.
Qed.

Lemma get_output_Raise_inv_witness :
  (TypeError = IndexError /\
   exists channel others,
     findall (mkElement "rss" None
                [mkElement "channel" None
                   [mkElement "title" (Some "T") [];
                    mkElement "item" None [mkElement "category" None []]]])
             "channel" = channel :: others /\
     Forall (fun el => find channel el = None) (keys channel_elements_dict)) \/
  (TypeError = TypeError /\
   exists channel item,
     In channel (findall (mkElement "rss" None
                            [mkElement "channel" None
                               [mkElement "title" (Some "T") [];
                                mkElement "item" None [mkElement "category" None []]]])
                         "channel") /\
     In item (findall channel "item") /\
     In None (map text (findall item "category"))).
Proof.
  apply (get_output_Raise_inv
           (mkElement "rss" None
              [mkElement "channel" None
                 [mkElement "title" (Some "T") [];
                  mkElement "item" None [mkElement "category" None []]]])
           None TypeError).
  reflexivity.
Defined.

(** X11: [get_output] returns its lines when the document has no channel
    or its first channel has an element of the channel catalog, and no
    category of an item lacks its text. *)
Theorem get_output_returns (parsed_xml : Element) (limit : option Z) :
  (findall parsed_xml "channel" = [] \/
   exists channel others el,
     findall parsed_xml "channel" = channel :: others /\
     In el (keys channel_elements_dict) /\ find channel el <> None) ->
  (forall channel item,
     In channel (findall parsed_xml "channel") -> In item (findall channel "item") ->
     Forall (fun c => text c <> None) (findall item "category")) ->
  exists lines,
    get_output channel_elements_dict item_elements_dict parsed_xml limit = Return lines.
Proof.
  intros Hfirst Htexts.
  destruct (get_output _ _ parsed_xml limit) as [lines | e] eqn:Hrun; [eauto |].
  exfalso; unfold get_output in Hrun.
  apply get_output_channels_Raise_inv in Hrun
    as [(_ & _ & c & others & Hc & Hnone) | (_ & c & item & Hc & Hitem & Htext)].
  - destruct Hfirst as [Hnil | (c' & others' & el & Hc' & Hel & Hfound)]; [congruence |].
    rewrite Hc in Hc'; injection Hc' as <- <-.
    rewrite Forall_forall in Hnone; exact (Hfound (Hnone el Hel)).
  - assert (Hitem' : In item (findall c "item")).
    { destruct limit; [eapply In_firstn |]; exact Hitem. }
    specialize (Htexts c item Hc Hitem'); rewrite Forall_forall in Htexts.
    apply in_map_iff in Htext as (cat & Hnone & Hcat).
    exact (Htexts cat Hcat Hnone).
Qed.

Lemma get_output_returns_witness :
  exists lines,
    get_output channel_elements_dict item_elements_dict
      (mkElement "rss" None [mkElement "channel" None [mkElement "title" (Some "T") []]])
      (Some 3)
    = Return lines.
Proof.
  apply (get_output_returns
           (mkElement "rss" None [mkElement "channel" None [mkElement "title" (Some "T") []]])
           (Some 3)).
  - right.
    exists (mkElement "channel" None [mkElement "title" (Some "T") []]), [], "title".
    repeat split; [simpl; tauto | discriminate].
  - intros channel item [<- | []] [].
Defined.

Lemma get_output_field_scalar_total (item : Element) (el : string) (output : list string) :
  In el (keys item_elements_dict) -> el <> "category" ->
  exists output',
    get_output_field channel_elements_dict item_elements_dict item el output = Return output'.
Proof.
  intros Hel Hne; unfold get_output_field.
  destruct (find item el) as [found |]; [| eauto].
  apply String.eqb_neq in Hne; rewrite Hne.
  destruct (String.eqb el "<description>"); [eauto |].
  destruct (getitem_keys item_elements_dict el Hel) as (label & ->); simpl; eauto.
Qed.

Lemma get_output_field_category_None (item : Element) (output : list string) :
  In None (map text (findall item "category")) ->
  get_output_field channel_elements_dict item_elements_dict item "category" output
  = Raise TypeError.
Proof.
  intros Hnone; unfold get_output_field.
  rewrite find_hd_findall.
  remember (findall item "category") as cs eqn:Hcs.
  destruct cs as [| c cs]; [destruct Hnone |].
  cbn [hd_error]; rewrite String.eqb_refl, nonempty_map; cbn [nonempty].
  unfold py_join; rewrite (all_str_None _ Hnone); reflexivity.
Qed.

(** X12: an item with a category that has no text makes the text renderer
    raise [TypeError], whatever was emitted before, where the JSON renderer
    returns the object of the item with a null among its Categories. *)
Theorem category_without_text (item : Element) :
  In None (map text (findall item "category")) ->
  (forall output,
     get_output_item channel_elements_dict item_elements_dict item output
     = Raise TypeError) /\
  (exists items_dict values,
     get_json_item channel_elements_dict item_elements_dict item = Return items_dict /\
     dict_lookup items_dict "Categories" = Some (PyList values) /\
     In PyNone values).
Proof.
  intros Hnone.
  assert (Hsome : findall item "category" <> [])
    by (intros Hnil; rewrite Hnil in Hnone; destruct Hnone).
  split.
  - intros output; unfold get_output_item.
    change (keys item_elements_dict)
      with (["title"; "author"; "pubDate"; "link"] ++ ["category"; "description"])%list.
    rewrite for_each_app.
    destruct (for_each_total
                (get_output_field channel_elements_dict item_elements_dict item)
                ["title"; "author"; "pubDate"; "link"]) with (s := output)
      as (output' & ->).
    { intros el out Hel; apply get_output_field_scalar_total;
        simpl in Hel |- *; intuition (subst; discriminate). }
    cbn [bind for_each].
    rewrite (get_output_field_category_None item output' Hnone); reflexivity.
  - destruct (json_fields_total item (keys item_elements_dict) []) as (items_dict & Hrun).
    exists items_dict, (map of_text (map text (findall item "category"))).
    split; [exact Hrun |]; split.
    + apply (json_fields_categories item (keys item_elements_dict) [] items_dict);
        [simpl; tauto | exact item_keys_not_Categories | exact Hsome | exact Hrun].
    + exact (in_map of_text _ None Hnone).
Qed.

Lemma category_without_text_witness :
  get_output_item channel_elements_dict item_elements_dict
    (mkElement "item" None [mkElement "title" (Some "A") []; mkElement "category" None []])
    ["Feed: T"]
  = Raise TypeError.
Proof.
  apply (category_without_text
           (mkElement "item" None
              [mkElement "title" (Some "A") []; mkElement "category" None []])).
  left; reflexivity.
Defined.

(** ** What JSON mode returns *)

Lemma get_json_object_total (parsed_xml : Element) (limit : option Z) :
  exists output,
    get_json_object channel_elements_dict item_elements_dict parsed_xml limit
    = Return output.
Proof.
  apply for_each_total; intros channel output _.
  destruct (get_json_channel_eq limit channel output) as (fields & l & _ & _ & ->); eauto.
Qed.

Section AnyParserAgain.

Variable fromstring : string -> outcome Element.

(** X13: in JSON mode, for a document that parses and a limit that is not
    negative, [rss_parser] always returns exactly one string, the
    serialised object of the document. *)
Theorem json_mode_returns_one_string (xml : string) (limit : option Z)
    (parsed_xml : Element) :
  limit_negative limit = false ->
  fromstring xml = Return parsed_xml ->
  exists output,
    get_json_object channel_elements_dict item_elements_dict parsed_xml limit
    = Return output /\
    rss_parser fromstring xml limit true = Return [dumps (PyDict output)].
Proof.
  intros Hlimit Hparse.
  destruct (get_json_object_total parsed_xml limit) as (output & Hrun).
  exists output; split; [exact Hrun |].
  unfold rss_parser, get_json_output; rewrite Hlimit, Hparse; simpl.
  rewrite Hrun; reflexivity.
Qed.

(** X14: for a document that parses and has no channel under its root,
    [rss_parser] returns no line in text mode and the one string of the
    empty object in JSON mode. *)
Theorem no_channel_no_lines (xml : string) (limit : option Z) (parsed_xml : Element) :
  limit_negative limit = false ->
  fromstring xml = Return parsed_xml ->
  findall parsed_xml "channel" = [] ->
  rss_parser fromstring xml limit false = Return [] /\
  rss_parser fromstring xml limit true = Return ["{}"].
Proof.
  intros Hlimit Hparse Hnone.
  unfold rss_parser, get_json_output, get_json_object, get_output.
  rewrite Hlimit, Hparse; simpl; rewrite Hnone; split; reflexivity.
Qed.

End AnyParserAgain.

Lemma json_mode_returns_one_string_witness :
  exists output,
    get_json_object channel_elements_dict item_elements_dict
      (mkElement "rss" None
         [mkElement "channel" None
            [mkElement "title" (Some "Some RSS Channel") [];
             mkElement "link" (Some "https://some.rss.com") [];
             mkElement "description" (Some "Some RSS Channel") []]])
      (Some 1)
    = Return output /\
    rss_parser plain_fromstring example_xml (Some 1) true = Return [dumps (PyDict output)].
Proof.
  apply (json_mode_returns_one_string plain_fromstring example_xml (Some 1)).
  - reflexivity.
  - vm_compute; reflexivity.
Defined.

Lemma no_channel_no_lines_witness :
  rss_parser plain_fromstring "<rss><title>T</title></rss>" None false = Return [] /\
  rss_parser plain_fromstring "<rss><title>T</title></rss>" None true = Return ["{}"].
Proof.
  apply (no_channel_no_lines plain_fromstring "<rss><title>T</title></rss>" None
           (mkElement "rss" None [mkElement "title" (Some "T") []])).
  - reflexivity.
  - vm_compute; reflexivity.
  - reflexivity.
Defined.

(** ** Several channels *)

Lemma for_each_frame {A B : Type} (body : A -> list B -> outcome (list B)) (xs : list A)
    (before : list B) :
  (forall x s, In x xs ->
     body x (extend before s) = (r <- body x s ;; Return (extend before r))) ->
  forall s,
    for_each body xs (extend before s)
    = (r <- for_each body xs s ;; Return (extend before r)).
Proof.
  induction xs as [| x xs IH]; intros Hframe s; simpl.
  - reflexivity.
  - rewrite (Hframe x s (or_introl eq_refl)).
    destruct (body x s) as [s1 | e]; simpl; [| reflexivity].
    apply IH; intros y t Hy; apply Hframe; right; exact Hy.
Qed.

(** What was emitted before a turn of the loop over the item keys stays in
    front of what the turn emits. *)
Lemma get_output_field_frame (dict1 dict2 : dict string) (item : Element) (el : string)
    (before output : list string) :
  get_output_field dict1 dict2 item el (extend before output)
  = (r <- get_output_field dict1 dict2 item el output ;; Return (extend before r)).
Proof.
  unfold get_output_field, append, extend.
  destruct (find item el) as [found |]; [| reflexivity].
  destruct (String.eqb el "category").
  - destruct (nonempty _); [| reflexivity].
    destruct (getitem dict1 el); simpl; [| reflexivity].
    destruct (py_join _ _); simpl; [| reflexivity].
    rewrite app_assoc; reflexivity.
  - destruct (String.eqb el "<description>"); simpl; [rewrite app_assoc; reflexivity |].
    destruct (getitem dict2 el); simpl; [| reflexivity].
    rewrite app_assoc; reflexivity.
Qed.

Lemma get_output_items_frame (dict1 dict2 : dict string) (items : list Element)
    (limit : option Z) (before output : list string) :
  get_output_items dict1 dict2 items limit 0 (extend before output)
  = (r <- get_output_items dict1 dict2 items limit 0 output ;; Return (extend before r)).
Proof.
  assert (Hitem : forall xs s,
             for_each (get_output_item dict1 dict2) xs (extend before s)
             = (r <- for_each (get_output_item dict1 dict2) xs s ;;
                Return (extend before r))).
  { intros xs s; apply for_each_frame; intros item t _.
    apply for_each_frame; intros el u _; apply get_output_field_frame. }
  destruct limit as [l |].
  - rewrite !get_output_items_from; apply Hitem.
  - rewrite !get_output_items_no_limit; apply Hitem.
Qed.

Lemma last_item_frame (before lines : list string) :
  lines <> [] -> last_item (extend before lines) = last_item lines.
Proof.
  unfold extend; intros Hne; induction before as [| x before IH]; [reflexivity |].
  simpl; destruct (before ++ lines)%list as [| y rest] eqn:Hrest; [| exact IH].
  apply app_eq_nil in Hrest as (_ & Hnil); contradiction.
Qed.

Lemma set_last_item_frame (before lines : list string) (x : string) :
  lines <> [] ->
  set_last_item (extend before lines) x
  = (r <- set_last_item lines x ;; Return (extend before r)).
Proof.
  unfold extend; intros Hne; induction before as [| y before IH]; simpl.
  - destruct (set_last_item lines x); reflexivity.
  - destruct (before ++ lines)%list as [| z rest] eqn:Hrest.
    + apply app_eq_nil in Hrest as (_ & Hnil); contradiction.
    + rewrite IH; destruct (set_last_item lines x); reflexivity.
Qed.

(** A turn of the loop over the channels that returns on an empty output
    puts the same lines after any output. *)
Lemma get_output_channel_frame (dict1 dict2 : dict string) (limit : option Z)
    (channel : Element) (before block : list string) :
  get_output_channel dict1 dict2 limit channel [] = Return block ->
  get_output_channel dict1 dict2 limit channel before = Return (extend before block).
Proof.
  unfold get_output_channel.
  destruct (get_channel_items dict1 channel) as [lines |]; simpl; [| discriminate].
  destruct lines as [| line lines]; [discriminate |].
  change (extend [] (line :: lines)) with (line :: lines).
  rewrite last_item_frame by discriminate.
  destruct (last_item (line :: lines)) as [final |]; [| discriminate].
  cbv beta iota delta [bind].
  rewrite set_last_item_frame by discriminate.
  destruct (set_last_item (line :: lines) (final ++ newline)) as [header |];
    [| discriminate].
  cbv beta iota delta [bind].
  rewrite get_output_items_frame; intros ->; reflexivity.
Qed.

(** X15: in text mode every channel contributes its own block of lines:
    when each channel alone gives a block, [get_output] returns the blocks
    one after the other, in the order of the channels. *)
Theorem get_output_concat_blocks (dict1 dict2 : dict string) (parsed_xml : Element)
    (limit : option Z) (blocks : list (list string)) :
  Forall2 (fun channel block =>
             get_output_channel dict1 dict2 limit channel [] = Return block)
          (findall parsed_xml "channel") blocks ->
  get_output dict1 dict2 parsed_xml limit = Return (concat blocks).
Proof.
  unfold get_output; intros Hblocks.
  change (concat blocks) with (extend [] (concat blocks)).
  generalize (@nil string) as output.
  induction Hblocks as [| channel block channels blocks Hblock _ IH]; intros output; simpl.
  - unfold extend; rewrite app_nil_r; reflexivity.
  - rewrite (get_output_channel_frame _ _ _ _ output block Hblock); simpl.
    rewrite IH; unfold extend; rewrite app_assoc; reflexivity.
Qed.

Lemma get_output_concat_blocks_witness :
  get_output channel_elements_dict item_elements_dict
    (mkElement "rss" None
       [mkElement "channel" None
          [mkElement "title" (Some "T") [];
           mkElement "item" None [mkElement "title" (Some "A") []]];
        mkElement "channel" None [mkElement "title" (Some "U") []]])
    None
  = Return (concat [["Feed: T" ++ newline; "Title: A"]; ["Feed: U" ++ newline]]).
Proof.
  apply (get_output_concat_blocks channel_elements_dict item_elements_dict
           (mkElement "rss" None
              [mkElement "channel" None
                 [mkElement "title" (Some "T") [];
                  mkElement "item" None [mkElement "title" (Some "A") []]];
               mkElement "channel" None [mkElement "title" (Some "U") []]])
           None [["Feed: T" ++ newline; "Title: A"]; ["Feed: U" ++ newline]]).
  repeat constructor.
Defined.

Lemma last_item_append (output : list string) (final : string) :
  last_item (append output final) = Return final.
Proof.
  unfold append; change (output ++ [final])%list with (extend output [final]).
  rewrite last_item_frame by discriminate; reflexivity.
Qed.

Lemma set_last_item_append (output : list string) (final x : string) :
  set_last_item (append output final) x = Return (append output x).
Proof.
  unfold append; change (output ++ [final])%list with (extend output [final]).
  rewrite set_last_item_frame by discriminate; reflexivity.
Qed.

(** X16: a channel with none of the elements of the catalog raises nothing
    once a line was emitted: its line feed goes to the end of the last line
    emitted so far, and its items follow. *)
Theorem channel_without_fields_after_output (dict1 dict2 : dict string)
    (limit : option Z) (channel : Element) (output : list string) (final : string) :
  Forall (fun el => find channel el = None) (keys dict1) ->
  get_output_channel dict1 dict2 limit channel (append output final)
  = get_output_items dict1 dict2 (findall channel "item") limit 0
      (append output (final ++ newline)).
Proof.
  intros Hnone; unfold get_output_channel, get_channel_items.
  rewrite (get_channel_items_nothing_found _ _ _ _ Hnone); simpl.
  unfold extend; rewrite app_nil_r, last_item_append; simpl.
  rewrite set_last_item_append; reflexivity.
Qed.

Lemma channel_without_fields_after_output_witness :
  get_output_channel channel_elements_dict item_elements_dict None
    (mkElement "channel" None [mkElement "item" None [mkElement "title" (Some "B") []]])
    (append ["Feed: T" ++ newline] "Title: A")
  = get_output_items channel_elements_dict item_elements_dict
      [mkElement "item" None [mkElement "title" (Some "B") []]] None 0
      (append ["Feed: T" ++ newline] ("Title: A" ++ newline)).
Proof.
  apply (channel_without_fields_after_output channel_elements_dict item_elements_dict None
           (mkElement "channel" None
              [mkElement "item" None [mkElement "title" (Some "B") []]])
           ["Feed: T" ++ newline] "Title: A").
  repeat constructor.
Defined.

Lemma NoDup_map_filter {A B : Type} (f : A -> B) (p : A -> bool) (xs : list A) :
  NoDup (map f xs) -> NoDup (map f (filter p xs)).
Proof.
  induction xs as [| x xs IH]; simpl; intros Hnodup; [constructor |].
  inversion Hnodup as [| y ys Hx Hxs]; subst.
  destruct (p x); simpl; [| exact (IH Hxs)].
  constructor; [| exact (IH Hxs)].
  intros Hin; apply Hx.
  apply in_map_iff in Hin as (z & Hz & Hin).
  apply filter_In in Hin as (Hin & _).
  rewrite <- Hz; apply in_map; exact Hin.
Qed.

Lemma get_channel_items_json_NoDup (channel : Element) (fields : dict PyVal) :
  get_channel_items_json channel_elements_dict channel = Return fields ->
  NoDup (keys fields).
Proof.
  intros Hrun; rewrite (json_channel_keys_eq channel fields Hrun).
  apply NoDup_map_filter.
  vm_compute; repeat constructor; simpl; intuition discriminate.
Qed.

(** Updating with a dictionary whose keys are new appends it. *)
Lemma update_fresh {V : Type} (e : dict V) :
  forall d,
    NoDup (keys e) -> (forall k, In k (keys e) -> ~ In k (keys d)) ->
    update d e = (d ++ e)%list.
Proof.
  unfold update; induction e as [| [k v] e IH]; intros d Hnodup Hfresh; simpl.
  - rewrite app_nil_r; reflexivity.
  - inversion Hnodup as [| k' ks Hk Hks]; subst.
    rewrite setitem_fresh by (apply Hfresh; left; reflexivity).
    rewrite IH; [rewrite <- app_assoc; reflexivity | exact Hks |].
    intros k' Hk' Hin; unfold keys in Hin; rewrite map_app in Hin.
    apply in_app_or in Hin as [Hin | [Hin | []]].
    + exact (Hfresh k' (or_intror Hk') Hin).
    + simpl in Hin; subst k'; exact (Hk Hk').
Qed.

Lemma update_app {V : Type} (d e1 e2 : dict V) :
  update d (e1 ++ e2)%list = update (update d e1) e2.
Proof. unfold update; apply fold_left_app. Qed.

Lemma dict_lookup_update_found {V : Type} (e : dict V) :
  forall d k v,
    NoDup (keys e) -> dict_lookup e k = Some v -> dict_lookup (update d e) k = Some v.
Proof.
  induction e as [| [k0 v0] e IH]; intros d k v Hnodup Hfound; simpl in Hfound.
  - discriminate Hfound.
  - inversion Hnodup as [| k' ks Hk Hks]; subst.
    change (update d ((k0, v0) :: e)) with (update (setitem d k0 v0) e).
    destruct (String.eqb_spec k k0) as [-> | Hne].
    + injection Hfound as <-.
      rewrite dict_lookup_update_other by exact Hk.
      apply dict_lookup_setitem_same.
    + apply IH; assumption.
Qed.

(** What the turn of [get_json_output] for one channel does to any
    [output], with the object the channel gives on its own. *)
Lemma get_json_channel_update (limit : option Z) (channel : Element) :
  exists object,
    get_json_channel channel_elements_dict item_elements_dict limit channel [] = Return object /\
    forall output,
      get_json_channel channel_elements_dict item_elements_dict limit channel output
      = Return (update output object).
Proof.
  destruct (json_fields_total channel (keys channel_elements_dict) []) as (fields & Hfields).
  destruct (get_json_items_length (findall channel "item") limit 0 [])
    as (items_list & Hitems & _).
  assert (Hnodup := get_channel_items_json_NoDup channel fields Hfields).
  assert (Hnew : update [] fields = fields).
  { rewrite update_fresh; [reflexivity | exact Hnodup | intros k _ []]. }
  assert (Hrun : forall output,
             get_json_channel channel_elements_dict item_elements_dict limit channel output
             = Return (if nonempty items_list
                       then setitem (update output fields) "items" (PyList items_list)
                       else update output fields)).
  { intros output; unfold get_json_channel, get_channel_items_json.
    rewrite Hfields; simpl; rewrite Hitems; simpl.
    destruct items_list; reflexivity. }
  eexists; split; [apply Hrun |].
  intros output; rewrite Hrun, Hnew.
  destruct (nonempty items_list); [| reflexivity].
  rewrite (setitem_fresh fields "items")
    by exact (channel_fields_have_no_items channel fields Hfields).
  rewrite update_app; reflexivity.
Qed.

(** X17: in JSON mode the channels are merged into one object: when each
    channel alone gives an object, the object of the document is what
    [dict.update] makes of them in the order of the channels, so that a
    later channel overwrites the keys it shares with an earlier one. *)
Theorem get_json_object_merges (parsed_xml : Element) (limit : option Z)
    (objects : list (dict PyVal)) :
  Forall2 (fun channel object =>
             get_json_channel channel_elements_dict item_elements_dict limit channel []
             = Return object)
          (findall parsed_xml "channel") objects ->
  get_json_object channel_elements_dict item_elements_dict parsed_xml limit
  = Return (fold_left update objects []).
Proof.
  unfold get_json_object; intros Hobjects.
  generalize (@nil (string * PyVal)) as output.
  induction Hobjects as [| channel object channels objects Hobject _ IH];
    intros output; simpl.
  - reflexivity.
  - destruct (get_json_channel_update limit channel) as (object' & Halone & Hany).
    rewrite Hobject in Halone; injection Halone as <-.
    rewrite Hany; simpl; apply IH.
Qed.

Lemma get_json_object_merges_witness :
  get_json_object channel_elements_dict item_elements_dict
    (mkElement "rss" None
       [mkElement "channel" None
          [mkElement "title" (Some "T") []; mkElement "link" (Some "L") []];
        mkElement "channel" None [mkElement "title" (Some "U") []]])
    None
  = Return (fold_left update
              [[("title", PyStr "T"); ("link", PyStr "L")]; [("title", PyStr "U")]] []).
Proof.
  apply (get_json_object_merges
           (mkElement "rss" None
              [mkElement "channel" None
                 [mkElement "title" (Some "T") []; mkElement "link" (Some "L") []];
               mkElement "channel" None [mkElement "title" (Some "U") []]])
           None
           [[("title", PyStr "T"); ("link", PyStr "L")]; [("title", PyStr "U")]]).
  repeat constructor.
Defined.

(** X18: in JSON mode the last channel wins: a scalar element of the
    catalog that the last channel of the document has is stored with the
    text it has there, whatever the earlier channels hold. *)
Theorem json_last_channel_wins (parsed_xml : Element) (limit : option Z)
    (earlier : list Element) (channel found : Element) (el : string) :
  findall parsed_xml "channel" = (earlier ++ [channel])%list ->
  In el (keys channel_elements_dict) -> el <> "category" ->
  find channel el = Some found ->
  exists output,
    get_json_object channel_elements_dict item_elements_dict parsed_xml limit
    = Return output /\
    dict_lookup output el = Some (of_text (text found)).
Proof.
  intros Hchannels Hel Hcategory Hfound.
  unfold get_json_object; rewrite Hchannels, for_each_app.
  destruct (for_each_total
              (get_json_channel channel_elements_dict item_elements_dict limit) earlier)
    with (s := @nil (string * PyVal)) as (output0 & ->).
  { intros c d _.
    destruct (get_json_channel_eq limit c d) as (fields & l & _ & _ & ->); eauto. }
  simpl.
  destruct (get_json_channel_eq limit channel output0)
    as (fields & items_list & Hfields & _ & ->); simpl.
  eexists; split; [reflexivity |].
  assert (Hvalue : dict_lookup (update output0 fields) el = Some (of_text (text found))).
  { apply dict_lookup_update_found.
    - exact (get_channel_items_json_NoDup channel fields Hfields).
    - apply (json_fields_scalar channel (keys channel_elements_dict) el found [] fields);
        try assumption.
      intros ->; exact (channel_keys_not_Categories Hel). }
  destruct (nonempty items_list); [| exact Hvalue].
  rewrite dict_lookup_setitem_other; [exact Hvalue |].
  intros ->; simpl in Hel; intuition discriminate.
Qed.

Lemma json_last_channel_wins_witness :
  exists output,
    get_json_object channel_elements_dict item_elements_dict
      (mkElement "rss" None
         [mkElement "channel" None [mkElement "title" (Some "T") []];
          mkElement "channel" None [mkElement "title" (Some "U") []]])
      None
    = Return output /\
    dict_lookup output "title" = Some (of_text (text (mkElement "title" (Some "U") []))).
Proof.
  apply (json_last_channel_wins
           (mkElement "rss" None
              [mkElement "channel" None [mkElement "title" (Some "T") []];
               mkElement "channel" None [mkElement "title" (Some "U") []]])
           None
           [mkElement "channel" None [mkElement "title" (Some "T") []]]
           (mkElement "channel" None [mkElement "title" (Some "U") []])
           (mkElement "title" (Some "U") []) "title").
  - reflexivity.
  - simpl; tauto.
  - discriminate.
  - reflexivity.
Defined.

(** ** What [main] prints *)

Lemma string_append_assoc (a b c : string) : ((a ++ b) ++ c = a ++ (b ++ c))%string.
Proof. induction a as [| x a IH]; simpl; [reflexivity | rewrite IH; reflexivity]. Qed.

Lemma join_app (sep : string) (xs ys : list string) :
  xs <> [] -> ys <> [] ->
  join sep (xs ++ ys)%list = join sep xs ++ sep ++ join sep ys.
Proof.
  intros Hxs Hys; induction xs as [| x xs IH]; [congruence |].
  destruct xs as [| x' xs].
  - destruct ys as [| y ys]; [congruence | reflexivity].
  - change (join sep ((x :: x' :: xs) ++ ys)%list)
      with (x ++ sep ++ join sep ((x' :: xs) ++ ys)%list).
    rewrite IH by discriminate.
    change (join sep (x :: x' :: xs)) with (x ++ sep ++ join sep (x' :: xs)).
    rewrite !string_append_assoc; reflexivity.
Qed.

(** Joining after the last line took a suffix is joining, then the
    suffix. *)
Lemma join_set_last_item (sep suffix : string) (xs xs' : list string) (final : string) :
  last_item xs = Return final ->
  set_last_item xs (final ++ suffix) = Return xs' ->
  join sep xs' = join sep xs ++ suffix.
Proof.
  revert xs'; induction xs as [| x xs IH]; intros xs' Hlast Hset; [discriminate Hlast |].
  destruct xs as [| y xs].
  - simpl in Hlast, Hset; injection Hlast as ->; injection Hset as <-; reflexivity.
  - change (last_item (x :: y :: xs)) with (last_item (y :: xs)) in Hlast.
    change (set_last_item (x :: y :: xs) (final ++ suffix))
      with (r <- set_last_item (y :: xs) (final ++ suffix) ;; Return (x :: r)) in Hset.
    apply bind_Return_inv in Hset as (r & Hr & Hset); injection Hset as <-.
    specialize (IH r Hlast Hr).
    destruct r as [| z r].
    + destruct (set_last_item_nonempty (y :: xs) (final ++ suffix)) as (r' & Hr' & Hne);
        [discriminate |].
      rewrite Hr in Hr'; injection Hr' as <-; congruence.
    + change (join sep (x :: z :: r)) with (x ++ sep ++ join sep (z :: r)).
      rewrite IH.
      change (join sep (x :: y :: xs)) with (x ++ sep ++ join sep (y :: xs)).
      rewrite !string_append_assoc; reflexivity.
Qed.

Section Printing.

Variable fromstring : string -> outcome Element.
Variable get : string -> outcome string.

(** X19: in text mode, for a fetched document with one channel that has
    lines of its own and lines for its items, [main] prints the lines of
    the channel, one blank line, and the lines of the items, each line
    ended by a line feed, and returns 0. *)
Theorem main_prints_blank_line (source : option string) (limit : option Z)
    (xml : string) (parsed_xml channel : Element) (header item_lines : list string) :
  get "https://news.yahoo.com/rss" = Return xml ->
  limit_negative limit = false ->
  fromstring xml = Return parsed_xml ->
  findall parsed_xml "channel" = [channel] ->
  get_channel_items channel_elements_dict channel = Return header ->
  header <> [] ->
  get_output_items channel_elements_dict item_elements_dict
    (findall channel "item") limit 0 [] = Return item_lines ->
  item_lines <> [] ->
  main fromstring get source false limit
  = Return (join newline header ++ newline ++ newline
              ++ join newline item_lines ++ newline, 0).
Proof.
  intros Hget Hlimit Hparse Hchannels Hheader Hne Hitems Hne'.
  unfold main; rewrite Hget; simpl.
  unfold rss_parser; rewrite Hlimit, Hparse; simpl.
  unfold get_output; rewrite Hchannels; simpl.
  unfold get_output_channel; rewrite Hheader; simpl.
  change (extend [] header) with header.
  destruct (last_item_nonempty header Hne) as (final & Hfinal); rewrite Hfinal; simpl.
  destruct (set_last_item_nonempty header (final ++ newline) Hne)
    as (header' & Hset & Hne''); rewrite Hset; simpl.
  rewrite <- (app_nil_r header') at 1.
  change (header' ++ [])%list with (extend header' []).
  rewrite get_output_items_frame, Hitems; simpl.
  unfold extend; rewrite join_app by assumption.
  rewrite (join_set_last_item newline newline header header' final Hfinal Hset).
  rewrite !string_append_assoc; reflexivity.
Qed.

(** X20: in JSON mode, for a fetched document that parses and a limit
    that is not negative, [main] prints the serialised object of the
    document and a line feed, and returns 0. *)
Theorem main_prints_json (source : option string) (limit : option Z)
    (xml : string) (parsed_xml : Element) :
  get "https://news.yahoo.com/rss" = Return xml ->
  limit_negative limit = false ->
  fromstring xml = Return parsed_xml ->
  exists output,
    get_json_object channel_elements_dict item_elements_dict parsed_xml limit
    = Return output /\
    main fromstring get source true limit = Return (dumps (PyDict output) ++ newline, 0).
Proof.
  intros Hget Hlimit Hparse.
  destruct (get_json_object_total parsed_xml limit) as (output & Hrun).
  exists output; split; [exact Hrun |].
  unfold main; rewrite Hget; simpl.
  unfold rss_parser, get_json_output; rewrite Hlimit, Hparse; simpl.
  rewrite Hrun; reflexivity.
Qed.

End Printing.

Lemma main_prints_blank_line_witness :
  main plain_fromstring
    (fun _ => Return "<rss><channel><title>T</title><link>L</link><item><title>A</title></item></channel></rss>")
    None false None
  = Return (join newline ["Feed: T"; "Link: L"] ++ newline ++ newline
              ++ join newline ["Title: A"] ++ newline, 0).
Proof.
  apply (main_prints_blank_line plain_fromstring
           (fun _ => Return "<rss><channel><title>T</title><link>L</link><item><title>A</title></item></channel></rss>")
           None None
           "<rss><channel><title>T</title><link>L</link><item><title>A</title></item></channel></rss>"
           (mkElement "rss" None
              [mkElement "channel" None
                 [mkElement "title" (Some "T") []; mkElement "link" (Some "L") [];
                  mkElement "item" None [mkElement "title" (Some "A") []]]])
           (mkElement "channel" None
              [mkElement "title" (Some "T") []; mkElement "link" (Some "L") [];
               mkElement "item" None [mkElement "title" (Some "A") []]])
           ["Feed: T"; "Link: L"] ["Title: A"]).
  - reflexivity.
  - reflexivity.
  - vm_compute; reflexivity.
  - reflexivity.
  - reflexivity.
  - discriminate.
  - reflexivity.
  - discriminate.
Defined.

Lemma main_prints_json_witness :
  exists output,
    get_json_object channel_elements_dict item_elements_dict
      (mkElement "rss" None [mkElement "channel" None [mkElement "title" (Some "T") []]])
      (Some 0)
    = Return output /\
    main plain_fromstring (fun _ => Return "<rss><channel><title>T</title></channel></rss>")
      (Some "https://example.org/feed") true (Some 0)
    = Return (dumps (PyDict output) ++ newline, 0).
Proof.
  apply (main_prints_json plain_fromstring
           (fun _ => Return "<rss><channel><title>T</title></channel></rss>")
           (Some "https://example.org/feed") (Some 0)
           "<rss><channel><title>T</title></channel></rss>").
  - reflexivity.
  - reflexivity.
  - vm_compute; reflexivity.
Defined.

(** ** The keys of the object of an item *)

(** X21: the keys of the JSON object of an item are, in the order of the
    item catalog and whatever the order of the children, the names of the
    catalog's elements that the item has a child for, with the label
    Categories in the place of category. *)
Theorem get_json_item_keys (item : Element) :
  exists items_dict,
    get_json_item channel_elements_dict item_elements_dict item = Return items_dict /\
    keys items_dict
    = map (fun el => if String.eqb el "category" then "Categories" else el)
        (filter (fun el => match find item el with
                           | Some _ => true
                           | None => false
                           end) (keys item_elements_dict)).
Proof.
  destruct (json_fields_total item (keys item_elements_dict) []) as (items_dict & Hrun).
  exists items_dict; split; [exact Hrun |].
  apply (json_fields_keys_exact item (keys item_elements_dict) [] items_dict);
    [| intros el _ [] | exact Hrun].
  vm_compute; repeat constructor; simpl; intuition discriminate.
Qed.

(** * The limit, channel by channel *)

(** ** The text renderer *)











(** ** The JSON renderer *)






(** ** The limit and the items *)



